(** * go-app: the sign-up pipeline, its in-memory adapter, the router and
      the server lifecycle, embedded from the Go sources.

    Layout (one module per Go package):
    - the values shared by every package: bytes, [error], [Time], the
      entropy source and the state monad threading it;
    - the library calls the repository makes ([utf8], [strings],
      [validator], [bcrypt], [uuid], [http], and further down [chi] and
      [middleware]), written out as far as the repository depends on them;
      what is a table or a digest of a library is a field of the class
      [Libs];
    - the packages of the repository: [entity], [dto], [api], [contract],
      [infrastructure], [use_case] (the contract-based use case), [legacy]
      (the hand-wired use case and its request), [request], [handlers]
      and [module_route] (the two handlers), [router], [bootstrap],
      [config], [cmd] (the function main) and [jwt];
    - [Sample], a concrete environment to run the definitions in;
    - the stated properties, the lemmas on each layer, concrete runs, the
      theorems of the claims C1 to C10, and the further properties X1 to
      X23 of the use case, the adapter, the router, the lifecycle, the
      configuration, the process, the tokens and the handlers. *)

From Stdlib Require Import String Ascii List ZArith NArith Bool Arith Lia.
From Stdlib Require Import DecimalString.
Import ListNotations.

Local Open Scope string_scope.

(* ===================================================================== *)
(** ** Shared values *)
(* ===================================================================== *)

(** A Go [byte]; a Go [string] is a sequence of bytes, here [string]. *)
Definition byte := ascii.

Definition zero_byte : byte := Ascii.zero.

(** [c & m | v] on one byte. *)
Definition byte_and_or (c : byte) (m v : N) : byte :=
  ascii_of_N (N.lor (N.land (N_of_ascii c) m) v).

(** Go's [error] interface.  [errorString] is what [errors.New] and the
    sentinel errors of the libraries build, [FieldError] is a
    [validator.ValidationErrors] holding one field error, [wrapError] is
    what [fmt.Errorf] builds for a format with one [%w]. *)
Inductive error : Type :=
| errorString (s : string)
| FieldError (ns field tag : string)
| wrapError (msg : string) (err : error).

Definition Error (e : error) : string :=
  match e with
  | errorString s => s
  | FieldError ns field tag =>
      "Key: '" ++ ns ++ "' Error:Field validation for '" ++ field
        ++ "' failed on the '" ++ tag ++ "' tag"
  | wrapError msg _ => msg
  end.

Definition Unwrap (e : error) : option error :=
  match e with
  | wrapError _ err => Some err
  | _ => None
  end.

Definition error_eqb : error -> error -> bool :=
  fix eqb (a b : error) : bool :=
    match a, b with
    | errorString s, errorString t => String.eqb s t
    | FieldError n f t, FieldError n' f' t' =>
        String.eqb n n' && String.eqb f f' && String.eqb t t'
    | wrapError m e, wrapError m' e' => String.eqb m m' && eqb e e'
    | _, _ => false
    end.

(** [errors.Is]: walks the [Unwrap] chain looking for [target]. *)
Fixpoint errors_Is (err target : error) : bool :=
  error_eqb err target
  || match err with
     | wrapError _ inner => errors_Is inner target
     | _ => false
     end.

(** [fmt.Errorf(prefix + "%w", err)]. *)
Definition fmt_Errorf_w (prefix : string) (err : error) : error :=
  wrapError (prefix ++ Error err) err.

(** [time.Time]: seconds and nanoseconds since the zero instant. *)
Record Time : Type := mkTime { sec : Z; nsec : Z }.

Definition zero_Time : Time := mkTime 0 0.

Definition IsZero (t : Time) : bool := (sec t =? 0)%Z && (nsec t =? 0)%Z.

(** [context.Context]: the code only passes it along. *)
Definition Context := unit.

(** [uuid.UUID] is [[16]byte]. *)
Definition UUID := list byte.

(** ** The entropy source and the state it lives in

    [crypto/rand] is a stream of bytes that never runs dry (since Go 1.24
    [rand.Read] does not return an error; [go.mod] asks for 1.25.4).  The
    state holds the stream and how far it has been consumed. *)
Record Rand : Type := mkRand { stream : nat -> byte; pos : nat }.

(** State monad over a state [S]: a computation returns its value and the
    next state. *)
Definition state (S A : Type) : Type := S -> A * S.

Definition ret {S A : Type} (a : A) : state S A := fun s => (a, s).

Definition bind {S A B : Type} (c : state S A) (k : A -> state S B)
  : state S B :=
  fun s => let (a, s') := c s in k a s'.

Declare Scope go_scope.
Delimit Scope go_scope with go.
Notation "x <- c ;; k" := (bind c (fun x => k))
  (at level 61, c at next level, right associativity) : go_scope.
Notation "' p <- c ;; k" := (bind c (fun x => let 'p := x in k))
  (at level 61, p pattern, c at next level, right associativity) : go_scope.
Local Open Scope go_scope.

(** [io.ReadFull(rand.Reader, buf)] for a buffer of [n] bytes. *)
Definition rand_Read (n : nat) : state Rand (list byte) :=
  fun r => (map (stream r) (seq (pos r) n), mkRand (stream r) (pos r + n)).

(* ===================================================================== *)
(** ** Library calls *)
(* ===================================================================== *)

(** What the repository takes from its libraries as a table or a digest:
    the regular expression behind validator's [email] tag, the Unicode
    case tables behind [strings.ToLower] on a string that is not ASCII,
    the Blowfish digest of bcrypt (the encoded salt and hash that follow
    the prefix of the hashed password), and chi's reading of the proxy
    headers of a request. *)
Class Libs : Type := {
  isEmail : string -> bool;
  Map_unicode_ToLower : string -> string;
  bcrypt_digest : list byte -> string -> Z -> string;
  realIP : list (string * string) -> string
}.

(** *** unicode/utf8 *)
Module utf8.

Definition RuneSelf : N := 0x80.
Definition locb : N := 0x80.
Definition hicb : N := 0xBF.
Definition xx : N := 0xF1.

(** The table [first]: information about the first byte of an encoding. *)
Definition first (c : N) : N :=
  (if c <? 0x80 then 0xF0
   else if c <? 0xC2 then 0xF1
   else if c <? 0xE0 then 0x02
   else if c =? 0xE0 then 0x13
   else if c <? 0xED then 0x03
   else if c =? 0xED then 0x23
   else if c <? 0xF0 then 0x03
   else if c =? 0xF0 then 0x34
   else if c <? 0xF4 then 0x04
   else if c =? 0xF4 then 0x44
   else 0xF1)%N.

(** The table [acceptRanges], as (lo, hi). *)
Definition acceptRanges (i : N) : N * N :=
  (match i with
   | 0 => (locb, hicb)
   | 1 => (0xA0, hicb)
   | 2 => (locb, 0x9F)
   | 3 => (0x90, hicb)
   | 4 => (locb, 0x8F)
   | _ => (0, 0)
   end)%N.

Definition byte_at (s : string) (i : nat) : N :=
  match String.get i s with
  | Some c => N_of_ascii c
  | None => 0%N
  end.

(** The width the loop of [RuneCountInString] advances by when the rest of
    the string is [s]: the body of the loop, with [s[i+k]] read as the
    [k]-th byte of [s] and [i+size > ns] as [size > len(s)]. *)
Definition advance (s : string) : nat :=
  let c := byte_at s 0 in
  if (c <? RuneSelf)%N then 1
  else
    let x := first c in
    if (x =? xx)%N then 1
    else
      let size := N.to_nat (N.land x 7) in
      if (String.length s <? size)%nat then 1
      else
        let accept := acceptRanges (N.shiftr x 4) in
        let c1 := byte_at s 1 in
        if ((c1 <? fst accept) || (snd accept <? c1))%N then 1
        else if (size =? 2)%nat then size
        else
          let c2 := byte_at s 2 in
          if ((c2 <? locb) || (hicb <? c2))%N then 1
          else if (size =? 3)%nat then size
          else
            let c3 := byte_at s 3 in
            if ((c3 <? locb) || (hicb <? c3))%N then 1 else size.

(** The loop: [skip] bytes of the current rune are still to be passed. *)
Fixpoint count (s : string) (skip : nat) : nat :=
  match s with
  | EmptyString => 0
  | String _ rest =>
      match skip with
      | S k => count rest k
      | O => S (count rest (advance s - 1))
      end
  end.

Definition RuneCountInString (s : string) : nat := count s 0.

End utf8.

(** *** strings *)
Module strings.

Definition isUpper (c : byte) : bool :=
  let n := N_of_ascii c in ((0x41 <=? n) && (n <=? 0x5A))%N.

Definition isASCII (s : string) : bool :=
  forallb (fun c => (N_of_ascii c <? utf8.RuneSelf)%N) (list_ascii_of_string s).

Definition hasUpper (s : string) : bool :=
  existsb isUpper (list_ascii_of_string s).

(** [c += 'a' - 'A'] on the upper-case letters. *)
Definition lowerByte (c : byte) : byte :=
  if isUpper c then ascii_of_N (N_of_ascii c + 0x20) else c.

Fixpoint mapBytes (f : byte -> byte) (s : string) : string :=
  match s with
  | EmptyString => EmptyString
  | String c rest => String (f c) (mapBytes f rest)
  end.

(** [strings.ToLower]: the ASCII path is written out; any other string
    goes through [strings.Map(unicode.ToLower, s)]. *)
Definition ToLower `{Libs} (s : string) : string :=
  if isASCII s then
    if negb (hasUpper s) then s else mapBytes lowerByte s
  else Map_unicode_ToLower s.

End strings.

(** *** go-playground/validator, the three tags the repository uses *)
Module validator.

(** The tags of one [validate.Var] call, in the order they are written. *)
Inductive tag : Type :=
| required
| email
| min (n : nat).

Definition tag_name (t : tag) : string :=
  match t with
  | required => "required"
  | email => "email"
  | min _ => "min"
  end.

Definition holds `{Libs} (t : tag) (field : string) : bool :=
  match t with
  | required => negb (String.eqb field "")
  | email => isEmail field
  | min n => (n <=? utf8.RuneCountInString field)%nat
  end.

(** Field validation stops at the first tag that fails; [ns] and [name]
    are the namespace and the field name of the report (both empty for
    [validate.Var]). *)
Fixpoint check `{Libs} (ns name : string) (tags : list tag) (field : string)
  : option error :=
  match tags with
  | [] => None
  | t :: rest =>
      if holds t field then check ns name rest field
      else Some (FieldError ns name (tag_name t))
  end.

Definition Var `{Libs} (field : string) (tags : list tag) : option error :=
  check "" "" tags field.

End validator.

(** *** golang.org/x/crypto/bcrypt *)
Module bcrypt.

Definition MinCost : Z := 4.
Definition MaxCost : Z := 31.
Definition DefaultCost : Z := 10.

Definition ErrPasswordTooLong : error :=
  errorString "bcrypt: password length exceeds 72 bytes".

Definition digit (d : Z) : byte := ascii_of_N (48 + Z.to_N d).

(** [fmt.Sprintf("%02d", cost)] for a cost that passed [checkCost]. *)
Definition cost_digits (cost : Z) : string :=
  String (digit (cost / 10)) (String (digit (cost mod 10)) EmptyString).

Definition InvalidCostError (cost : Z) : error :=
  errorString ("crypto/bcrypt: cost " ++ NilZero.string_of_int (Z.to_int cost)
               ++ " is outside allowed inclusive range 4..31").

Definition checkCost (cost : Z) : option error :=
  if ((cost <? MinCost) || (MaxCost <? cost))%Z
  then Some (InvalidCostError cost) else None.

(** [newFromPassword] followed by [Hash]: a salt of 16 bytes is read from
    the entropy source, and the result is [$2a$], the cost on two digits,
    [$], and the encoded salt and hash. *)
Definition newFromPassword `{Libs} (password : string) (cost : Z)
  : state Rand (string * option error) :=
  let cost := if (cost <? MinCost)%Z then DefaultCost else cost in
  match checkCost cost with
  | Some err => ret (EmptyString, Some err)
  | None =>
      unencodedSalt <- rand_Read 16 ;;
      ret ("$2a$" ++ cost_digits cost ++ "$"
             ++ bcrypt_digest unencodedSalt password cost, None)
  end.

Definition GenerateFromPassword `{Libs} (password : string) (cost : Z)
  : state Rand (string * option error) :=
  if (72 <? String.length password)%nat
  then ret (EmptyString, Some ErrPasswordTooLong)
  else newFromPassword password cost.

End bcrypt.

(** *** github.com/google/uuid *)
Module uuid.

Definition Nil : UUID := repeat zero_byte 16.

(** [u[i] = f(u[i])]. *)
Fixpoint update (i : nat) (f : byte -> byte) (u : list byte) : list byte :=
  match u, i with
  | [], _ => []
  | c :: rest, O => f c :: rest
  | c :: rest, S j => c :: update j f rest
  end.

(** [NewRandomFromReader(rand.Reader)]: 16 random bytes, then the version
    (4) in the high half of byte 6 and the variant (10) in the two high
    bits of byte 8. *)
Definition NewRandom : state Rand (UUID * option error) :=
  buf <- rand_Read 16 ;;
  let u := update 6 (fun c => byte_and_or c 0x0f 0x40) buf in
  let u := update 8 (fun c => byte_and_or c 0x3f 0x80) u in
  ret (u, None).

(** [New] is [Must(NewRandom())]; [NewRandom] has no error to give here. *)
Definition New : state Rand UUID :=
  '(u, _) <- NewRandom ;; ret u.

End uuid.

(** *** net/http, the response writer and the request *)
Module http.

Definition StatusOK : Z := 200.
Definition StatusCreated : Z := 201.
Definition StatusBadRequest : Z := 400.
Definition StatusNotFound : Z := 404.
Definition StatusMethodNotAllowed : Z := 405.

Definition ErrServerClosed : error := errorString "http: Server closed".

Record ResponseWriter : Type := mkResponse {
  wroteHeader : bool;
  status : Z;
  body : string
}.

(** The writer a request starts with. *)
Definition newResponse : ResponseWriter := mkResponse false 0 EmptyString.

(** A second [WriteHeader] is ignored. *)
Definition WriteHeader (code : Z) (w : ResponseWriter) : ResponseWriter :=
  if wroteHeader w then w else mkResponse true code (body w).

(** [Write] sends the header with [StatusOK] when none was written. *)
Definition Write (b : string) (w : ResponseWriter) : ResponseWriter :=
  let w := WriteHeader StatusOK w in
  mkResponse (wroteHeader w) (status w) (body w ++ b).

(** The request identifier chi keeps in the context of a request. *)
Inductive requestID : Type :=
| noID
| fromHeader (s : string)
| generated (myid : nat).

Record Request : Type := mkRequest {
  Method : string;
  Path : string;
  Header : list (string * string);
  RemoteAddr : string;
  ctxRequestID : requestID;
  Body : string
}.

(** [r.Header.Get(key)]. *)
Fixpoint Get (h : list (string * string)) (key : string) : string :=
  match h with
  | [] => EmptyString
  | (k, v) :: rest => if String.eqb k key then v else Get rest key
  end.

End http.

(* ===================================================================== *)
(** ** The repository's packages *)
(* ===================================================================== *)

(** *** internal/domain/entity *)
Module entity.

(** Modelled from the spec: the declaration of [entity.User]
    (user_entity.go is not among the sources).  Fields as the data model
    lists them: id, email, hashedPassword, createdAt, and updatedAt, which
    is absent until the entity is modified. *)
Record User : Type := mkUser {
  ID : UUID;
  Email : string;
  HashedPassword : string;
  CreatedAt : Time;
  UpdatedAt : option Time
}.

(** Modelled from the spec: [User.Validate] (user_entity.go is not among
    the sources).  The rule is: non-empty, email-shaped email; non-empty
    hashedPassword. *)
Definition Validate `{Libs} (u : User) : option error :=
  match validator.check "User.Email" "Email"
          [validator.required; validator.email] (Email u) with
  | Some err => Some err
  | None =>
      validator.check "User.HashedPassword" "HashedPassword"
        [validator.required] (HashedPassword u)
  end.

End entity.

(** *** internal/domain/dto *)
Module dto.

(** Modelled from the spec: the declaration of [dto.SignUpInput]
    (sign_up_input.go is not among the sources): email and password. *)
Record SignUpInput : Type := mkSignUpInput {
  Email : string;
  Password : string
}.

End dto.

(** *** internal/api/auth *)
Module api.

(** Modelled from the spec: the declaration of [auth.SignUpRequest]
    (sign_up_request.go is not among the sources): email and password,
    raw strings from the wire. *)
Record SignUpRequest : Type := mkSignUpRequest {
  Email : string;
  Password : string
}.

(** Modelled from the spec: [SignUpRequest.Validate] (sign_up_request.go
    is not among the sources).  Transport-level validation: email must be
    present and syntactically a valid email; password must be present and
    at least 5 characters. *)
Definition Validate `{Libs} (req : SignUpRequest) : option error :=
  match validator.check "SignUpRequest.Email" "Email"
          [validator.required; validator.email] (Email req) with
  | Some errs => Some errs
  | None =>
      validator.check "SignUpRequest.Password" "Password"
        [validator.required; validator.min 5] (Password req)
  end.

End api.

(** *** internal/domain/contract *)
Module contract.

(** The interface [UserRepository]: one method.  An adapter works on the
    entropy source; it returns Go's pair of a pointer and an error. *)
Record UserRepository : Type := mkUserRepository {
  Create : Context -> entity.User
           -> state Rand (option entity.User * option error)
}.

End contract.

(** ** The state a request runs in

    [createCalls] is the list of the entities handed to the repository's
    [Create], in call order (what a call-counting stub adapter records);
    [reqid] is the request counter of the router's middleware and [logged]
    what its logger has written. *)
Record World : Type := mkWorld {
  entropy : Rand;
  createCalls : list entity.User;
  reqid : nat;
  logged : list (string * string * Z)
}.

(** A library call that only uses the entropy source. *)
Definition liftRand {A : Type} (c : state Rand A) : state World A :=
  fun w =>
    let (a, r) := c (entropy w) in
    (a, mkWorld r (createCalls w) (reqid w) (logged w)).

(** A call of the method [Create] through the interface: the call is
    recorded, then the adapter runs. *)
Definition call_Create (repo : contract.UserRepository) (ctx : Context)
    (du : entity.User) : state World (option entity.User * option error) :=
  fun w =>
    liftRand (contract.Create repo ctx du)
      (mkWorld (entropy w) (createCalls w ++ [du]) (reqid w) (logged w)).

(** *** internal/infrastructure/repository *)
Module infrastructure.

(** [UserRepository.Create] of the in-memory adapter (both copies of the
    file have the same body).  The fields the composite literal leaves out
    take their zero values. *)
Definition Create `{Libs} (ctx : Context) (du : entity.User)
  : state Rand (option entity.User * option error) :=
  id <- uuid.New ;;
  let newUser :=
    entity.mkUser id (strings.ToLower (entity.Email du))
      (entity.HashedPassword du) zero_Time None in
  ret (Some newUser, None).

Definition NewUserRepository `{Libs} : contract.UserRepository :=
  contract.mkUserRepository Create.

End infrastructure.

(** *** internal/domain/use_case/auth, the contract-based variant *)
Module use_case.

Record SignUpUseCase : Type := mkSignUpUseCase {
  userRepo : contract.UserRepository
}.

Definition NewSignUpUseCase (userRepo : contract.UserRepository)
  : SignUpUseCase := mkSignUpUseCase userRepo.

Definition Execute `{Libs} (uc : SignUpUseCase) (ctx : Context)
    (input : dto.SignUpInput)
  : state World (option entity.User * option error) :=
  '(hashed, err) <-
     liftRand (bcrypt.GenerateFromPassword (dto.Password input)
                 bcrypt.DefaultCost) ;;
  match err with
  | Some err => ret (None, Some err)
  | None =>
      let du :=
        entity.mkUser uuid.Nil (dto.Email input) hashed zero_Time None in
      match entity.Validate du with
      | Some err => ret (None, Some err)
      | None =>
          '(newUser, err) <- call_Create (userRepo uc) ctx du ;;
          match err with
          | Some err => ret (None, Some err)
          | None => ret (newUser, None)
          end
      end
  end.

End use_case.

(** *** The hand-wired variant: use_case/auth/dto, the use case that
    validates its request itself, and the module_route handler *)
Module legacy.

Record SignUpRequestDto : Type := mkSignUpRequestDto {
  Email : string;
  Password : string
}.

Definition Validate `{Libs} (req : SignUpRequestDto) : option error :=
  match validator.Var (Email req) [validator.required; validator.email] with
  | Some errs => Some errs
  | None =>
      match validator.Var (Password req)
              [validator.required; validator.min 5] with
      | Some errs => Some errs
      | None => None
      end
  end.

Record SignUpUseCase : Type := mkSignUpUseCase {
  userRepo : contract.UserRepository
}.

Definition NewSignUpUseCase (userRepo : contract.UserRepository)
  : SignUpUseCase := mkSignUpUseCase userRepo.

Definition Execute `{Libs} (uc : SignUpUseCase) (ctx : Context)
    (req : SignUpRequestDto)
  : state World (option entity.User * option error) :=
  match Validate req with
  | Some err => ret (None, Some err)
  | None =>
      '(hashed, err) <-
         liftRand (bcrypt.GenerateFromPassword (Password req)
                     bcrypt.DefaultCost) ;;
      match err with
      | Some err => ret (None, Some err)
      | None =>
          let du :=
            entity.mkUser uuid.Nil (Email req) hashed zero_Time None in
          match entity.Validate du with
          | Some err => ret (None, Some err)
          | None =>
              '(newUser, err) <- call_Create (userRepo uc) ctx du ;;
              match err with
              | Some err => ret (None, Some err)
              | None => ret (newUser, None)
              end
          end
      end
  end.

End legacy.

(** *** pkg/http/request *)
Module request.

(** The values the handlers pass to [ToJSON]: the map with the one key
    [error], or the pointer to the user the use case returned. *)
Inductive any : Type :=
| errorMap (message : string)
| userPtr (u : option entity.User).

(** encoding/json as the codec uses it: the decoder of a body into the two
    string fields [email] and [password], unknown fields disallowed, and
    the encoder of a value. *)
Class Codec : Type := {
  json_Decode : string -> (string * string) * option error;
  json_Encode : any -> string
}.

Definition maxBodyBytes : Z := 1048576.

(** Modelled from the spec: [request.FromJSON] (parser.go is not among the
    sources).  It enforces a maximum body size of 1 MiB, rejects fields not
    in the expected shape and a body that is not well formed; [mk] builds
    the payload from the decoded fields. *)
Definition FromJSON `{Codec} {A : Type} (mk : string -> string -> A)
    (r : http.Request) : A * option error :=
  if (maxBodyBytes <? Z.of_nat (String.length (http.Body r)))%Z
  then (mk EmptyString EmptyString,
        Some (errorString "http: request body too large"))
  else
    let '((e, p), err) := json_Decode (http.Body r) in
    match err with
    | Some err => (mk EmptyString EmptyString, Some err)
    | None => (mk e p, None)
    end.

(** Modelled from the spec: [request.ToJSON] (parser.go is not among the
    sources).  It writes the status and the value, serialized, as the
    response. *)
Definition ToJSON `{Codec} (w : http.ResponseWriter) (v : any) (status : Z)
  : http.ResponseWriter :=
  http.Write (json_Encode v) (http.WriteHeader status w).

End request.

(** A handler: [func(http.ResponseWriter, *http.Request)]. *)
Definition Handler : Type :=
  http.ResponseWriter -> http.Request -> state World http.ResponseWriter.

(** *** internal/infrastructure/http/handlers/auth *)
Module handlers.

Record AuthHandler : Type := mkAuthHandler {
  signUpUseCase : use_case.SignUpUseCase
}.

Definition NewAuthHandler (args : use_case.SignUpUseCase) : AuthHandler :=
  mkAuthHandler args.

Definition SignUp `{Libs} `{request.Codec} (h : AuthHandler) : Handler :=
  fun resWriter r =>
    let '(payload, err) := request.FromJSON api.mkSignUpRequest r in
    match err with
    | Some err =>
        ret (request.ToJSON resWriter (request.errorMap (Error err))
               http.StatusBadRequest)
    | None =>
        match api.Validate payload with
        | Some err =>
            ret (request.ToJSON resWriter (request.errorMap (Error err))
                   http.StatusBadRequest)
        | None =>
            let input :=
              dto.mkSignUpInput (api.Email payload) (api.Password payload) in
            '(user, err) <- use_case.Execute (signUpUseCase h) tt input ;;
            match err with
            | Some err =>
                ret (request.ToJSON resWriter (request.errorMap (Error err))
                       http.StatusBadRequest)
            | None =>
                ret (request.ToJSON resWriter (request.userPtr user)
                       http.StatusCreated)
            end
        end
    end.

End handlers.

(** *** internal/infrastructure/http/module_route/auth *)
Module module_route.

Record AuthHandler : Type := mkAuthHandler {
  signUpUseCase : legacy.SignUpUseCase
}.

Definition NewAuthHandler (args : legacy.SignUpUseCase) : AuthHandler :=
  mkAuthHandler args.

Definition SignUp `{Libs} `{request.Codec} (h : AuthHandler) : Handler :=
  fun resWriter r =>
    let '(payload, err) := request.FromJSON legacy.mkSignUpRequestDto r in
    match err with
    | Some err =>
        ret (request.ToJSON resWriter (request.errorMap (Error err))
               http.StatusBadRequest)
    | None =>
        '(user, err) <- legacy.Execute (signUpUseCase h) tt payload ;;
        match err with
        | Some err =>
            ret (request.ToJSON resWriter (request.errorMap (Error err))
                   http.StatusBadRequest)
        | None =>
            ret (request.ToJSON resWriter (request.userPtr user)
                   http.StatusCreated)
        end
    end.

End module_route.

(** *** github.com/go-chi/chi: the mux and the four middlewares *)
Module chi.

Definition Middleware : Type := Handler -> Handler.

Record Mux : Type := mkMux {
  middlewares : list Middleware;
  routes : list (string * string * Handler)
}.

Definition NewRouter : Mux := mkMux [] [].

Definition Use (mw : Middleware) (mx : Mux) : Mux :=
  mkMux (middlewares mx ++ [mw]) (routes mx).

Definition handle (method pattern : string) (h : Handler) (mx : Mux) : Mux :=
  mkMux (middlewares mx) (routes mx ++ [(method, pattern, h)]).

Definition Get := handle "GET".
Definition Post := handle "POST".

(** The first middleware added is the outermost. *)
Definition chain (mws : list Middleware) (h : Handler) : Handler :=
  fold_right (fun mw next => mw next) h mws.

(** [Route(pattern, fn)]: [fn] fills a fresh sub-router, which is mounted
    under [pattern]. *)
Definition Route (pattern : string) (fn : Mux -> Mux) (mx : Mux) : Mux :=
  let sub := fn NewRouter in
  mkMux (middlewares mx)
    (routes mx
     ++ map (fun '(m, p, h) => (m, pattern ++ p, chain (middlewares sub) h))
          (routes sub)).

Definition NotFound : Handler :=
  fun w _ =>
    ret (http.Write ("404 page not found" ++ String (ascii_of_nat 10) "")
           (http.WriteHeader http.StatusNotFound w)).

Definition MethodNotAllowed : Handler :=
  fun w _ =>
    ret (http.Write "" (http.WriteHeader http.StatusMethodNotAllowed w)).

Fixpoint findMethod (method : string) (rs : list (string * string * Handler))
  : option Handler :=
  match rs with
  | [] => None
  | (m, _, h) :: rest =>
      if String.eqb m method then Some h else findMethod method rest
  end.

(** Routing of the static patterns the repository registers: the routes
    with the request's path, then the one with its method. *)
Definition routeHTTP (mx : Mux) : Handler :=
  fun w r =>
    match filter (fun '(_, p, _) => String.eqb p (http.Path r)) (routes mx)
    with
    | [] => NotFound w r
    | matching =>
        match findMethod (http.Method r) matching with
        | Some h => h w r
        | None => MethodNotAllowed w r
        end
    end.

Definition ServeHTTP (mx : Mux) : Handler :=
  chain (middlewares mx) (routeHTTP mx).

End chi.

Module middleware.

Definition withRequestID (r : http.Request) (id : http.requestID)
  : http.Request :=
  http.mkRequest (http.Method r) (http.Path r) (http.Header r)
    (http.RemoteAddr r) id (http.Body r).

Definition withRemoteAddr (r : http.Request) (addr : string)
  : http.Request :=
  http.mkRequest (http.Method r) (http.Path r) (http.Header r)
    addr (http.ctxRequestID r) (http.Body r).

(** The identifier of the header [X-Request-Id], or the next value of the
    counter [reqid]. *)
Definition RequestID : chi.Middleware :=
  fun next w r wd =>
    let requestID := http.Get (http.Header r) "X-Request-Id" in
    if String.eqb requestID "" then
      let myid := S (reqid wd) in
      next w (withRequestID r (http.generated myid))
        (mkWorld (entropy wd) (createCalls wd) myid (logged wd))
    else next w (withRequestID r (http.fromHeader requestID)) wd.

Definition RealIP `{Libs} : chi.Middleware :=
  fun next w r =>
    let rip := realIP (http.Header r) in
    if String.eqb rip "" then next w r else next w (withRemoteAddr r rip).

(** The logger writes its entry (method, path, status) once the handler
    has returned. *)
Definition Logger : chi.Middleware :=
  fun next w r wd =>
    let (w', wd') := next w r wd in
    (w', mkWorld (entropy wd') (createCalls wd') (reqid wd')
           (logged wd' ++ [(http.Method r, http.Path r, http.status w')])).

(** [Recoverer] acts when the handler panics; a handler that returns goes
    through unchanged. *)
Definition Recoverer : chi.Middleware := fun next => next.

End middleware.

(** [RegisterRoutes] of the handler packages; [signUp] is the method value
    [h.SignUp]. *)
Definition RegisterRoutes (signUp : Handler) (r : chi.Mux) : chi.Mux :=
  chi.Route "/auth" (fun ur => chi.Post "/sign-up" signUp ur) r.

(** *** internal/infrastructure/http/router *)
Module router.

Definition health : Handler := fun w _ => ret (http.Write "ok" w).

Definition NewRouter `{Libs} (AuthHandler : Handler) : chi.Mux :=
  let r := chi.NewRouter in
  let r := chi.Use middleware.RequestID r in
  let r := chi.Use middleware.RealIP r in
  let r := chi.Use middleware.Logger r in
  let r := chi.Use middleware.Recoverer r in
  let r := chi.Get "/health" health r in
  let r := chi.Route "/api/v1" (fun ur => RegisterRoutes AuthHandler ur) r in
  r.

End router.

(** *** internal/bootstrap and internal/app *)
Module bootstrap.

Record Container : Type := mkContainer {
  Status : Z;
  Router : chi.Mux
}.

Definition Close (c : Container) : Container := mkContainer 0 (Router c).

(** The providers of wire.go. *)
Definition ProvideUserRepository `{Libs} : contract.UserRepository :=
  infrastructure.NewUserRepository.

Definition ProvideSignUpUseCase (userRepo : contract.UserRepository)
  : use_case.SignUpUseCase := use_case.NewSignUpUseCase userRepo.

Definition ProvideAuthHandler (signUpUseCase : use_case.SignUpUseCase)
  : handlers.AuthHandler := handlers.NewAuthHandler signUpUseCase.

Definition ProvideRouter `{Libs} `{request.Codec}
    (authHandler : handlers.AuthHandler) : chi.Mux :=
  router.NewRouter (handlers.SignUp authHandler).

Definition ProvideContainer (r : chi.Mux) : Container := mkContainer 1 r.

(** Modelled from the spec: [InitializeContainer], whose body the wire
    generator writes (wire_gen.go is not among the sources).  It builds, in
    strict dependency order, the adapter, the use case receiving it, the
    handler receiving the use case and the router receiving the handler. *)
Definition InitializeContainer `{Libs} `{request.Codec}
  : Container * option error :=
  let userRepository := ProvideUserRepository in
  let signUpUseCase := ProvideSignUpUseCase userRepository in
  let authHandler := ProvideAuthHandler signUpUseCase in
  let mux := ProvideRouter authHandler in
  (ProvideContainer mux, None).

Definition CreateServerContainer `{Libs} `{request.Codec}
  : Container * option error := InitializeContainer.

(** bootstrap.go and the container of package app: the hand-wired
    variant. *)
Definition BootstrapHandler `{Libs} `{request.Codec}
    (UserRepository : contract.UserRepository) : chi.Mux :=
  let authHandler :=
    module_route.NewAuthHandler (legacy.NewSignUpUseCase UserRepository) in
  router.NewRouter (module_route.SignUp authHandler).

Definition app_CreateServerContainer `{Libs} `{request.Codec}
  : Container * option error :=
  let r := BootstrapHandler infrastructure.NewUserRepository in
  (mkContainer 1 r, None).

(** **** StartRestAPI

    What the two notification channels of the [select] can deliver, in
    the order of arrival: the cancellation of [ctx], or the return of
    [server.ListenAndServe] in the background goroutine. *)
Inductive Signal : Type :=
| ctxDone
| listenReturned (err : option error).

(** [time.Second], a [time.Duration] in nanoseconds. *)
Definition Second : Z := 1000000000.

(** The server as the function uses it: [Shutdown] called with a context
    whose timeout is given, with its result. *)
Record Server : Type := mkServer {
  Shutdown : Z -> option error
}.

(** The goroutine sends to [errCh] the errors that are not nil and not
    [http.ErrServerClosed]. *)
Definition sent (err : option error) : option error :=
  match err with
  | Some e => if negb (errors_Is e http.ErrServerClosed) then Some e else None
  | None => None
  end.

(** The [select]: [None] while neither channel has delivered (the function
    is still blocked), [Some] of the returned error afterwards. *)
Fixpoint StartRestAPI (server : Server) (arrivals : list Signal)
  : option (option error) :=
  match arrivals with
  | [] => None
  | ctxDone :: _ =>
      match Shutdown server (10 * Second) with
      | Some err => Some (Some (fmt_Errorf_w "server shutdown: " err))
      | None => Some None
      end
  | listenReturned err :: rest =>
      match sent err with
      | Some err => Some (Some err)
      | None => StartRestAPI server rest
      end
  end.

End bootstrap.

(** *** internal/config *)
Module config.

(** [strconv.ParseInt(value, 0, 64)], which envconfig calls for a field of
    type [int]. *)
Class Strconv : Type := {
  ParseInt : string -> Z * option error
}.

(** [os.LookupEnv]: the environment of the process. *)
Definition Env : Type := string -> option string.

Record AppConfig : Type := mkAppConfig {
  App_Port : Z
}.

Record DBConfig : Type := mkDBConfig {
  DB_Host : string;
  DB_Port : Z;
  DB_DatabaseName : string;
  DB_Username : string;
  DB_Password : string
}.

Record Config : Type := mkConfig {
  App : AppConfig;
  DB : DBConfig
}.

(** [godotenv.Load()]: the entries of the file .env ([None] when the file
    is missing or does not parse) are set for the keys the environment
    does not have yet. *)
Definition godotenv_Load (dotenv : option Env) (env : Env) : Env :=
  match dotenv with
  | None => env
  | Some file =>
      fun key =>
        match env key with
        | Some v => Some v
        | None => file key
        end
  end.

(** What envconfig gathers for a field tagged [envconfig:"TAG"] under a
    prefix: the key [PREFIX_TAG], the alternative key [TAG], the default
    and whether the field is required.  (The tags of this file are in
    upper case already.) *)
Record varInfo : Type := mkVarInfo {
  Name : string;
  Key : string;
  Alt : string;
  default : string;
  required : bool
}.

Definition gatherInfo (prefix name tag def : string) (req : bool) : varInfo :=
  mkVarInfo name (prefix ++ "_" ++ tag) tag def req.

(** The loop body of [envconfig.Process] before the field is assigned:
    the value to assign, nothing to do, or the error for a required key. *)
Inductive lookup : Type :=
| found (value : string)
| skip
| missing (err : error).

Definition lookupField (env : Env) (info : varInfo) : lookup :=
  let '(value, ok) :=
    match env (Key info) with
    | Some v => (v, true)
    | None =>
        if negb (String.eqb (Alt info) "") then
          match env (Alt info) with
          | Some v => (v, true)
          | None => (EmptyString, false)
          end
        else (EmptyString, false)
    end in
  let def := default info in
  let value := if negb (String.eqb def "") && negb ok then def else value in
  if negb ok && String.eqb def "" then
    if required info then
      let key := if negb (String.eqb (Alt info) "") then Alt info
                 else Key info in
      missing (errorString ("required key " ++ key ++ " missing value"))
    else skip
  else found value.

(** The error of a value that does not convert to the type of its
    field. *)
Definition ParseError (info : varInfo) (typeName value : string)
    (err : error) : error :=
  errorString ("envconfig.Process: assigning " ++ Key info ++ " to "
               ++ Name info ++ ": converting '" ++ value ++ "' to type "
               ++ typeName ++ ". details: " ++ Error err).

(** A field of type [int]: [old] is the value the field has when nothing
    is assigned. *)
Definition processInt `{Strconv} (env : Env) (info : varInfo) (old : Z)
  : Z * option error :=
  match lookupField env info with
  | missing err => (old, Some err)
  | skip => (old, None)
  | found value =>
      let (n, err) := ParseInt value in
      match err with
      | Some err => (old, Some (ParseError info "int" value err))
      | None => (n, None)
      end
  end.

(** A field of type [string]. *)
Definition processString (env : Env) (info : varInfo) (old : string)
  : string * option error :=
  match lookupField env info with
  | missing err => (old, Some err)
  | skip => (old, None)
  | found value => (value, None)
  end.

(** [envconfig.Process("APP", &cfg.App)]. *)
Definition Process_App `{Strconv} (env : Env) : AppConfig * option error :=
  let (port, err) :=
    processInt env (gatherInfo "APP" "Port" "APP_PORT" "8080" false) 0 in
  (mkAppConfig port, err).

(** [envconfig.Process("DB", &cfg.DB)]: the fields in the order of the
    struct, stopping at the first error. *)
Definition Process_DB `{Strconv} (env : Env) : DBConfig * option error :=
  let (host, err) :=
    processString env (gatherInfo "DB" "Host" "DB_HOST" "" true) "" in
  match err with
  | Some err => (mkDBConfig host 0 "" "" "", Some err)
  | None =>
      let (port, err) :=
        processInt env (gatherInfo "DB" "Port" "DB_PORT" "5432" false) 0 in
      match err with
      | Some err => (mkDBConfig host port "" "" "", Some err)
      | None =>
          let (name, err) :=
            processString env
              (gatherInfo "DB" "DatabaseName" "DB_NAME" "" true) "" in
          match err with
          | Some err => (mkDBConfig host port name "" "", Some err)
          | None =>
              let (user, err) :=
                processString env
                  (gatherInfo "DB" "Username" "DB_USERNAME" "" true) "" in
              match err with
              | Some err => (mkDBConfig host port name user "", Some err)
              | None =>
                  let (password, err) :=
                    processString env
                      (gatherInfo "DB" "Password" "DB_PASSWORD" "" true) "" in
                  (mkDBConfig host port name user password, err)
              end
          end
      end
  end.

(** [Load]: the error of [godotenv.Load] is dropped. *)
Definition Load `{Strconv} (dotenv : option Env) (env : Env)
  : option Config * option error :=
  let env := godotenv_Load dotenv env in
  let (app, err) := Process_App env in
  match err with
  | Some err => (None, Some (fmt_Errorf_w "load APP config: " err))
  | None =>
      let (db, err) := Process_DB env in
      match err with
      | Some err => (None, Some (fmt_Errorf_w "load DB config: " err))
      | None => (Some (mkConfig app db), None)
      end
  end.

End config.

(** *** cmd/server: [main] *)
Module cmd.

(** How the process ends: its exit status, the message of the fatal log
    entry if there is one, and what the deferred [c.Close()] printed. *)
Record Exit : Type := mkExit {
  code : Z;
  fatal : option string;
  stdout : list string
}.

(** Modelled from the spec: [logger.L().Fatalf] (pkg/logger is not among
    the sources): it logs the message and terminates the process with a
    non-zero status; the deferred calls of [main] do not run then. *)
Definition Fatalf (format : string) (err : error) : Exit :=
  mkExit 1 (Some (format ++ Error err)) [].

(** [main] of the variant that calls [bootstrap.CreateServerContainer]; the
    server and the arrivals stand for the listener and the signals of the
    run.  [None] while [StartRestAPI] has not returned. *)
Definition main `{Libs} `{request.Codec} `{config.Strconv}
    (dotenv : option config.Env) (env : config.Env)
    (server : bootstrap.Server) (arrivals : list bootstrap.Signal)
  : option Exit :=
  let (cfg, err) := config.Load dotenv env in
  match err with
  | Some err => Some (Fatalf "config error: " err)
  | None =>
      let (c, err) := bootstrap.CreateServerContainer in
      match err with
      | Some err => Some (Fatalf "fail to create server container: " err)
      | None =>
          match bootstrap.StartRestAPI server arrivals with
          | None => None
          | Some (Some err) => Some (Fatalf "starting server: " err)
          | Some None => Some (mkExit 0 None ["Container closed"])
          end
      end
  end.

End cmd.

(** *** pkg/jwt *)
Module jwt.

Definition ErrInvalidToken : error := errorString "invalid token".

(** A signing method; [SigningMethodHMAC] is the type the type assertion
    of the key function tests for. *)
Inductive SigningMethod : Type :=
| SigningMethodHMAC (alg : string)
| otherMethod (alg : string).

Definition SigningMethodHS256 : SigningMethod := SigningMethodHMAC "HS256".

(** What [ParseUnverified] returns of a token string: the token with its
    method and claims, the text that was signed and the encoded
    signature. *)
Record Token (Claims : Type) : Type := mkToken {
  Method : SigningMethod;
  TokenClaims : Claims;
  text : string;
  encodedSignature : string
}.

Arguments mkToken {Claims}.
Arguments Method {Claims}.
Arguments TokenClaims {Claims}.
Arguments text {Claims}.
Arguments encodedSignature {Claims}.

(** The library github.com/golang-jwt/jwt/v5, by the steps of
    [Token.SignedString] and [Parser.ParseWithClaims]. *)
Class Lib (Claims : Type) : Type := {
  SigningString : SigningMethod -> Claims -> string * option error;
  Sign : SigningMethod -> string -> string -> string * option error;
  EncodeSegment : string -> string;
  DecodeSegment : string -> string * option error;
  ParseUnverified : string -> Token Claims + error;
  MethodVerify : SigningMethod -> string -> string -> string -> option error;
  Validate : Claims -> option error
}.

(** [Token.SignedString(key)]. *)
Definition SignedString {Claims : Type} `{Lib Claims}
    (method : SigningMethod) (claims : Claims) (key : string)
  : string * option error :=
  let (sstr, err) := SigningString method claims in
  match err with
  | Some err => (EmptyString, Some err)
  | None =>
      let (sig, err) := Sign method sstr key in
      match err with
      | Some err => (EmptyString, Some err)
      | None => (sstr ++ "." ++ EncodeSegment sig, None)
      end
  end.

(** [ParseWithClaims(tokenStr, claims, keyFunc)]: the token is parsed, the
    signature decoded, the key function asked for the key, the signature
    verified, the claims validated.  The result is the field [Valid] of
    the token, with the error; the claims the call decodes into its
    argument are those of the parsed token. *)
Definition ParseWithClaims {Claims : Type} `{Lib Claims} (tokenStr : string)
    (keyFunc : Token Claims -> string * option error)
  : bool * option error :=
  match ParseUnverified tokenStr with
  | inr err => (false, Some err)
  | inl token =>
      let (sig, err) := DecodeSegment (encodedSignature token) in
      match err with
      | Some err => (false, Some (wrapError "token is malformed" err))
      | None =>
          let (key, err) := keyFunc token in
          match err with
          | Some err => (false, Some (wrapError "token is unverifiable" err))
          | None =>
              match MethodVerify (Method token) (text token) sig key with
              | Some err =>
                  (false, Some (wrapError "token signature is invalid" err))
              | None =>
                  match Validate (TokenClaims token) with
                  | Some err =>
                      (false, Some (wrapError "token has invalid claims" err))
                  | None => (true, None)
                  end
              end
          end
      end
  end.

Record Client : Type := mkClient {
  secretKey : string;
  tokenDuration : Z
}.

Definition NewJWTClient (secretKey : string) (tokenDuration : Z) : Client :=
  mkClient secretKey tokenDuration.

Definition Generate {Claims : Type} `{Lib Claims} (c : Client)
    (claims : Claims) : string * option error :=
  let (signedToken, err) :=
    SignedString SigningMethodHS256 claims (secretKey c) in
  match err with
  | Some err => (EmptyString, Some err)
  | None => (signedToken, None)
  end.

(** The key function of [Verify]. *)
Definition keyFunc {Claims : Type} (c : Client) (t : Token Claims)
  : string * option error :=
  match Method t with
  | SigningMethodHMAC _ => (secretKey c, None)
  | otherMethod _ => (EmptyString, Some ErrInvalidToken)
  end.

(** [Verify(tokenStr, claims)]: the argument [claims] is where the
    library decodes the claims of the token; here the parsed token carries
    them, and the function returns its error. *)
Definition Verify {Claims : Type} `{Lib Claims} (c : Client)
    (tokenStr : string) : option error :=
  let (valid, err) := ParseWithClaims tokenStr (keyFunc c) in
  match err with
  | Some _ => Some ErrInvalidToken
  | None => if negb valid then Some ErrInvalidToken else None
  end.

End jwt.

(* ===================================================================== *)
(** ** A concrete environment to run the definitions in *)
(* ===================================================================== *)

Module Sample.

(** A stand-in for the [email] rule: something, an [@], something. *)
Fixpoint has_at (s : string) : bool :=
  match s with
  | EmptyString => false
  | String c rest =>
      if Ascii.eqb c "@"%char then negb (String.eqb rest "") else has_at rest
  end.

Definition shaped (s : string) : bool :=
  match s with
  | EmptyString => false
  | String c rest => negb (Ascii.eqb c "@"%char) && has_at rest
  end.

#[export] Instance libs : Libs := {
  isEmail := shaped;
  Map_unicode_ToLower := fun s => s;
  bcrypt_digest := fun salt password _ =>
    string_of_list_ascii salt ++ password;
  realIP := fun h => http.Get h "X-Real-IP"
}.

(** A stand-in for the codec: the body is [email password], separated by
    one space; anything else is malformed. *)
Fixpoint split_space (s : string) : option (string * string) :=
  match s with
  | EmptyString => None
  | String c rest =>
      if Ascii.eqb c " "%char then Some (EmptyString, rest)
      else match split_space rest with
           | Some (a, b) => Some (String c a, b)
           | None => None
           end
  end.

#[export] Instance codec : request.Codec := {
  json_Decode := fun b =>
    match split_space b with
    | Some p => (p, None)
    | None => ((EmptyString, EmptyString),
               Some (errorString "unexpected end of JSON input"))
    end;
  json_Encode := fun v =>
    match v with
    | request.errorMap m => "error: " ++ m
    | request.userPtr (Some u) => "user: " ++ entity.Email u
    | request.userPtr None => "null"
    end
}.

(** Entropy sources: every byte zero, and the bytes 0, 1, 2, ... *)
Definition zeros : Rand := mkRand (fun _ => zero_byte) 0.
Definition counting : Rand := mkRand (fun i => ascii_of_nat i) 0.

Definition world (r : Rand) : World := mkWorld r [] 0 [].

(** A stub adapter that rejects every write. *)
Definition failing : contract.UserRepository :=
  contract.mkUserRepository
    (fun _ _ => ret (None, Some (errorString "write rejected"))).

Definition post (b : string) : http.Request :=
  http.mkRequest "POST" "/api/v1/auth/sign-up" [] "10.0.0.1:4242"
    http.noID b.

(** A password of 73 bytes, one more than bcrypt takes. *)
Definition long_password : string :=
  string_of_list_ascii (repeat "a"%char 73).

(** A candidate entity that already carries an identifier and
    timestamps. *)
Definition candidate : entity.User :=
  entity.mkUser
    (uuid.update 8 (fun _ => ascii_of_nat 128)
       (uuid.update 6 (fun _ => ascii_of_nat 64) uuid.Nil))
    "Alice@Example.COM" "$2a$10$abc"
    (mkTime 63900000000 7) (Some (mkTime 63900000001 0)).

(** A server whose shutdown does not finish within a window shorter than
    twelve seconds, and one that always finishes. *)
Definition slow_server : bootstrap.Server :=
  bootstrap.mkServer
    (fun timeout =>
       if (timeout <? 12 * bootstrap.Second)%Z
       then Some (errorString "context deadline exceeded") else None).

Definition idle_server : bootstrap.Server :=
  bootstrap.mkServer (fun _ => None).

(** A stand-in for [strconv.ParseInt]: decimal digits only. *)
Fixpoint digits (s : string) (acc : Z) : option Z :=
  match s with
  | EmptyString => Some acc
  | String c rest =>
      let n := nat_of_ascii c in
      if ((48 <=? n) && (n <=? 57))%nat
      then digits rest (10 * acc + Z.of_nat (n - 48))
      else None
  end.

#[export] Instance strconv : config.Strconv := {
  ParseInt := fun s =>
    match s with
    | EmptyString => (0%Z, Some (errorString "invalid syntax"))
    | _ => match digits s 0 with
           | Some n => (n, None)
           | None => (0%Z, Some (errorString "invalid syntax"))
           end
    end
}.

(** An environment given as a list of the variables that are set. *)
Fixpoint environ (vars : list (string * string)) : config.Env :=
  fun key =>
    match vars with
    | [] => None
    | (k, v) :: rest => if String.eqb k key then Some v else environ rest key
    end.

Definition db_vars : list (string * string) :=
  [("DB_HOST", "localhost"); ("DB_NAME", "app"); ("DB_USERNAME", "app");
   ("DB_PASSWORD", "")].

(** A stand-in for the token library: the signed text is the algorithm, a
    bar and the claims; the signature is the key, a hash sign and the
    text; segments are kept as they are. *)
Fixpoint split_on (sep : ascii) (s : string) : option (string * string) :=
  match s with
  | EmptyString => None
  | String c rest =>
      if Ascii.eqb c sep then Some (EmptyString, rest)
      else match split_on sep rest with
           | Some (a, b) => Some (String c a, b)
           | None => None
           end
  end.

Definition alg_of (m : jwt.SigningMethod) : string :=
  match m with
  | jwt.SigningMethodHMAC alg => alg
  | jwt.otherMethod alg => alg
  end.

#[export] Instance tokens : jwt.Lib string := {
  SigningString := fun m claims => (alg_of m ++ "|" ++ claims, None);
  Sign := fun _ sstr key => (key ++ "#" ++ sstr, None);
  EncodeSegment := fun sig => sig;
  DecodeSegment := fun seg => (seg, None);
  ParseUnverified := fun tok =>
    match split_on "."%char tok with
    | None => inr (errorString "token contains an invalid number of segments")
    | Some (sstr, seg) =>
        match split_on "|"%char sstr with
        | None => inr (errorString "token is malformed")
        | Some (alg, claims) =>
            inl (jwt.mkToken
                   (if String.eqb alg "HS256" then jwt.SigningMethodHMAC alg
                    else jwt.otherMethod alg)
                   claims sstr seg)
        end
    end;
  MethodVerify := fun _ sstr sig key =>
    if String.eqb sig (key ++ "#" ++ sstr) then None
    else Some (errorString "signature is invalid");
  Validate := fun _ => None
}.

End Sample.

(* ===================================================================== *)
(** ** Stated properties *)
(* ===================================================================== *)

(** The 16 bytes the next read of the entropy source returns, and the
    source after [n] bytes were read. *)
Definition draw (r : Rand) : list byte := map (stream r) (seq (pos r) 16).

Definition after (r : Rand) (n : nat) : Rand := mkRand (stream r) (pos r + n).

(** The identifier [uuid.NewRandom] makes of a buffer, and the bits of the
    buffer that survive in it: the low half of byte 6 and the low six bits
    of byte 8 (the other 14 bytes are kept whole). *)
Definition v4 (buf : list byte) : UUID :=
  uuid.update 8 (fun c => byte_and_or c 0x3f 0x80)
    (uuid.update 6 (fun c => byte_and_or c 0x0f 0x40) buf).

Definition random_bits (buf : list byte) : list byte :=
  uuid.update 8 (fun c => byte_and_or c 0x3f 0)
    (uuid.update 6 (fun c => byte_and_or c 0x0f 0) buf).

(** The claim that the identifier of [Create] is always fresh: on two
    calls in sequence both succeed, neither identifier is the one its
    caller supplied, and the second differs from the first. *)
Definition create_always_fresh `{Libs} : Prop :=
  forall (ctx : Context) (du1 du2 : entity.User) (r : Rand),
    let (res1, r1) := infrastructure.Create ctx du1 r in
    let (res2, _) := infrastructure.Create ctx du2 r1 in
    exists u1 u2,
      res1 = (Some u1, None) /\ res2 = (Some u2, None)
      /\ entity.ID u1 <> entity.ID du1
      /\ entity.ID u2 <> entity.ID du2
      /\ entity.ID u2 <> entity.ID u1.

(** The world after a library call moved the entropy source to [r]. *)
Definition with_entropy (w : World) (r : Rand) : World :=
  mkWorld r (createCalls w) (reqid w) (logged w).

(** The entity [Execute] constructs before it validates and persists. *)
Definition unpersisted (email hashed : string) : entity.User :=
  entity.mkUser uuid.Nil email hashed zero_Time None.

(** The hashed password bcrypt makes at the default cost when the entropy
    source is [r]. *)
Definition hash_of `{Libs} (password : string) (r : Rand) : string :=
  "$2a$10$" ++ bcrypt_digest (draw r) password bcrypt.DefaultCost.

(** The validation rule of the entity, in words of its fields. *)
Definition satisfies_rule `{Libs} (u : entity.User) : Prop :=
  entity.Email u <> ""
  /\ isEmail (entity.Email u) = true
  /\ entity.HashedPassword u <> "".

(** What [Execute] hands to [Create] between two worlds is valid. *)
Definition hands_over_valid `{Libs} (w w' : World) : Prop :=
  exists added,
    createCalls w' = (createCalls w ++ added)%list
    /\ Forall (fun u => entity.Validate u = None /\ satisfies_rule u) added.

(** The use case and the handler the container wires to the in-memory
    adapter. *)
Definition wired_use_case `{Libs} : use_case.SignUpUseCase :=
  use_case.NewSignUpUseCase infrastructure.NewUserRepository.

(** The claim that the contract-based [Execute] succeeds on every input
    whose email is non-empty and email-shaped, whatever the password. *)
Definition execute_accepts_any_password `{Libs} : Prop :=
  forall (ctx : Context) (input : dto.SignUpInput) (w : World),
    dto.Email input <> "" ->
    isEmail (dto.Email input) = true ->
    exists u, fst (use_case.Execute wired_use_case ctx input w)
              = (Some u, None).

(** The value envconfig finds for a tag under a prefix: the variable
    [PREFIX_TAG], or else the variable [TAG]. *)
Definition config_value (env : config.Env) (prefix tag : string)
  : option string :=
  match env (prefix ++ "_" ++ tag) with
  | Some v => Some v
  | None => env tag
  end.

(** What the goroutine of [StartRestAPI] keeps to itself: a nil error, or
    one that [errors.Is] matches with [http.ErrServerClosed]. *)
Definition quiet (s : bootstrap.Signal) : Prop :=
  s = bootstrap.listenReturned None
  \/ exists err,
       s = bootstrap.listenReturned (Some err)
       /\ errors_Is err http.ErrServerClosed = true.

(** The handler answered with the status [code] and the value [v]: the
    header is written with [code] and the encoding of [v] is added to the
    body. *)
Definition responds `{request.Codec} (resWriter w' : http.ResponseWriter)
    (code : Z) (v : request.any) : Prop :=
  http.wroteHeader w' = true
  /\ http.status w' = code
  /\ http.body w' = http.body resWriter ++ request.json_Encode v.

(** The input the handler of routes.go makes of its payload. *)
Definition input_of (payload : api.SignUpRequest) : dto.SignUpInput :=
  dto.mkSignUpInput (api.Email payload) (api.Password payload).

(** The two handlers wired to the in-memory adapter. *)
Definition wired_handler `{Libs} : handlers.AuthHandler :=
  handlers.NewAuthHandler wired_use_case.

Definition wired_legacy_handler `{Libs} : module_route.AuthHandler :=
  module_route.NewAuthHandler
    (legacy.NewSignUpUseCase infrastructure.NewUserRepository).

(** The four ways through [SignUp] of routes.go. *)
Inductive SignUp_outcome `{Libs} `{request.Codec}
    (h : handlers.AuthHandler)
    (resWriter : http.ResponseWriter) (r : http.Request) (w : World)
  : http.ResponseWriter * World -> Prop :=
| decode_failed payload err :
    request.FromJSON api.mkSignUpRequest r = (payload, Some err) ->
    SignUp_outcome h resWriter r w
      (request.ToJSON resWriter (request.errorMap (Error err))
         http.StatusBadRequest, w)
| validation_failed payload err :
    request.FromJSON api.mkSignUpRequest r = (payload, None) ->
    api.Validate payload = Some err ->
    SignUp_outcome h resWriter r w
      (request.ToJSON resWriter (request.errorMap (Error err))
         http.StatusBadRequest, w)
| execute_failed payload user err w' :
    request.FromJSON api.mkSignUpRequest r = (payload, None) ->
    api.Validate payload = None ->
    use_case.Execute (handlers.signUpUseCase h) tt (input_of payload) w
    = ((user, Some err), w') ->
    SignUp_outcome h resWriter r w
      (request.ToJSON resWriter (request.errorMap (Error err))
         http.StatusBadRequest, w')
| execute_succeeded payload user w' :
    request.FromJSON api.mkSignUpRequest r = (payload, None) ->
    api.Validate payload = None ->
    use_case.Execute (handlers.signUpUseCase h) tt (input_of payload) w
    = ((user, None), w') ->
    SignUp_outcome h resWriter r w
      (request.ToJSON resWriter (request.userPtr user)
         http.StatusCreated, w').

(** The three ways through [SignUp] of module_route. *)
Inductive legacy_SignUp_outcome `{Libs} `{request.Codec}
    (h : module_route.AuthHandler)
    (resWriter : http.ResponseWriter) (r : http.Request) (w : World)
  : http.ResponseWriter * World -> Prop :=
| legacy_decode_failed payload err :
    request.FromJSON legacy.mkSignUpRequestDto r = (payload, Some err) ->
    legacy_SignUp_outcome h resWriter r w
      (request.ToJSON resWriter (request.errorMap (Error err))
         http.StatusBadRequest, w)
| legacy_execute_failed payload user err w' :
    request.FromJSON legacy.mkSignUpRequestDto r = (payload, None) ->
    legacy.Execute (module_route.signUpUseCase h) tt payload w
    = ((user, Some err), w') ->
    legacy_SignUp_outcome h resWriter r w
      (request.ToJSON resWriter (request.errorMap (Error err))
         http.StatusBadRequest, w')
| legacy_execute_succeeded payload user w' :
    request.FromJSON legacy.mkSignUpRequestDto r = (payload, None) ->
    legacy.Execute (module_route.signUpUseCase h) tt payload w
    = ((user, None), w') ->
    legacy_SignUp_outcome h resWriter r w
      (request.ToJSON resWriter (request.userPtr user)
         http.StatusCreated, w').

(* ===================================================================== *)
(** ** The in-memory adapter *)
(* ===================================================================== *)

Section Adapter.

Context `{L : Libs}.

Lemma rand_Read_16 (r : Rand) : rand_Read 16 r = (draw r, after r 16).
Proof. reflexivity. Qed.

Lemma uuid_New_eq (r : Rand) : uuid.New r = (v4 (draw r), after r 16).
Proof. reflexivity. Qed.

(** [Create] in one equation. *)
Lemma Create_eq (ctx : Context) (du : entity.User) (r : Rand) :
  infrastructure.Create ctx du r
  = ((Some (entity.mkUser (v4 (draw r))
              (strings.ToLower (entity.Email du))
              (entity.HashedPassword du) zero_Time None), None),
     after r 16).
Proof. reflexivity. Qed.

Lemma version_bits (c : byte) :
  byte_and_or c 0x0f 0x40
  = let 'Ascii b0 b1 b2 b3 _ _ _ _ := c in
    Ascii b0 b1 b2 b3 false false true false.
Proof. destruct c as [[] [] [] [] [] [] [] []]; reflexivity. Qed.

Lemma version_random_bits (c : byte) :
  byte_and_or c 0x0f 0
  = let 'Ascii b0 b1 b2 b3 _ _ _ _ := c in
    Ascii b0 b1 b2 b3 false false false false.
Proof. destruct c as [[] [] [] [] [] [] [] []]; reflexivity. Qed.

Lemma variant_bits (c : byte) :
  byte_and_or c 0x3f 0x80
  = let 'Ascii b0 b1 b2 b3 b4 b5 _ _ := c in
    Ascii b0 b1 b2 b3 b4 b5 false true.
Proof. destruct c as [[] [] [] [] [] [] [] []]; reflexivity. Qed.

Lemma variant_random_bits (c : byte) :
  byte_and_or c 0x3f 0
  = let 'Ascii b0 b1 b2 b3 b4 b5 _ _ := c in
    Ascii b0 b1 b2 b3 b4 b5 false false.
Proof. destruct c as [[] [] [] [] [] [] [] []]; reflexivity. Qed.

Lemma version_eq_iff (a b : byte) :
  byte_and_or a 0x0f 0x40 = byte_and_or b 0x0f 0x40
  <-> byte_and_or a 0x0f 0 = byte_and_or b 0x0f 0.
Proof.
  rewrite !version_bits, !version_random_bits.
  destruct a, b; split; intros E; injection E as -> -> -> ->; reflexivity.
Qed.

Lemma variant_eq_iff (a b : byte) :
  byte_and_or a 0x3f 0x80 = byte_and_or b 0x3f 0x80
  <-> byte_and_or a 0x3f 0 = byte_and_or b 0x3f 0.
Proof.
  rewrite !variant_bits, !variant_random_bits.
  destruct a, b; split; intros E; injection E as -> -> -> -> -> ->;
    reflexivity.
Qed.

(** Two identifiers made of two draws are equal exactly when the draws
    agree on their random bits. *)
Lemma v4_draw_eq_iff (r1 r2 : Rand) :
  v4 (draw r1) = v4 (draw r2) <-> random_bits (draw r1) = random_bits (draw r2).
Proof.
  unfold v4, random_bits, draw. cbn [seq map uuid.update].
  split; intros E; injection E as E0 E1 E2 E3 E4 E5 E6 E7 E8 E9 Ea Eb Ec Ed Ee Ef;
    rewrite E0, E1, E2, E3, E4, E5, E7, E9, Ea, Eb, Ec, Ed, Ee, Ef;
    [ apply version_eq_iff in E6; apply variant_eq_iff in E8
    | apply <- version_eq_iff in E6; apply <- variant_eq_iff in E8 ];
    rewrite E6, E8; reflexivity.
Qed.

Lemma lowerByte_not_upper (c : byte) :
  strings.isUpper (strings.lowerByte c) = false.
Proof. destruct c as [[] [] [] [] [] [] [] []]; reflexivity. Qed.

Lemma hasUpper_mapBytes_lower (s : string) :
  strings.hasUpper (strings.mapBytes strings.lowerByte s) = false.
Proof.
  unfold strings.hasUpper.
  induction s as [|c s IH]; [reflexivity|].
  cbn [strings.mapBytes list_ascii_of_string existsb].
  rewrite lowerByte_not_upper. exact IH.
Qed.

(** On an ASCII string [ToLower] leaves no upper-case letter. *)
Lemma ToLower_ASCII_no_upper (s : string) :
  strings.isASCII s = true -> strings.hasUpper (strings.ToLower s) = false.
Proof.
  intros A. unfold strings.ToLower. rewrite A.
  destruct (strings.hasUpper s) eqn:U; cbn [negb].
  - apply hasUpper_mapBytes_lower.
  - exact U.
Qed.

End Adapter.

(* ===================================================================== *)
(** ** The use case *)
(* ===================================================================== *)

Section UseCase.

Context `{L : Libs}.

Lemma GenerateFromPassword_eq (password : string) (r : Rand) :
  bcrypt.GenerateFromPassword password bcrypt.DefaultCost r
  = if (72 <? String.length password)%nat
    then ((EmptyString, Some bcrypt.ErrPasswordTooLong), r)
    else ((hash_of password r, None), after r 16).
Proof.
  unfold bcrypt.GenerateFromPassword.
  destruct (72 <? String.length password)%nat; reflexivity.
Qed.

(** At the default cost the hasher fails exactly on the passwords of more
    than 72 bytes. *)
Lemma GenerateFromPassword_fails_iff (password : string) (r : Rand) :
  (exists err, snd (fst (bcrypt.GenerateFromPassword password
                           bcrypt.DefaultCost r)) = Some err)
  <-> 72 < String.length password.
Proof.
  rewrite GenerateFromPassword_eq.
  destruct (Nat.ltb_spec 72 (String.length password)) as [Hlt|Hge]; cbn.
  - split; [intros _; exact Hlt | intros _; eauto].
  - split; [intros [err E]; discriminate | lia].
Qed.

Lemma hash_of_not_empty (password : string) (r : Rand) :
  hash_of password r <> "".
Proof. unfold hash_of. cbn. discriminate. Qed.

Lemma required_holds_iff (s : string) :
  validator.holds validator.required s = true <-> s <> "".
Proof.
  cbn. destruct (String.eqb_spec s ""); cbn; split; congruence.
Qed.

(** The entity's check passes exactly on the entities that satisfy the
    rule. *)
Lemma Validate_None_iff (u : entity.User) :
  entity.Validate u = None <-> satisfies_rule u.
Proof.
  unfold entity.Validate, satisfies_rule. cbn [validator.check].
  destruct (validator.holds validator.required (entity.Email u)) eqn:R1.
  - destruct (validator.holds validator.email (entity.Email u)) eqn:E.
    + destruct (validator.holds validator.required (entity.HashedPassword u))
        eqn:R2.
      * apply required_holds_iff in R1, R2. cbn in E. tauto.
      * split; [discriminate|]. intros (_ & _ & H).
        apply required_holds_iff in H. congruence.
    + split; [discriminate|]. cbn in E. intros (_ & H & _). congruence.
  - split; [discriminate|]. intros (H & _).
    apply required_holds_iff in H. congruence.
Qed.

Lemma liftRand_createCalls {A : Type} (c : state Rand A) (w : World) :
  createCalls (snd (liftRand c w)) = createCalls w.
Proof. unfold liftRand. destruct (c (entropy w)). reflexivity. Qed.

(** A call through the interface adds the candidate to the record, and
    nothing else, whatever the adapter does. *)
Lemma call_Create_createCalls (repo : contract.UserRepository)
    (ctx : Context) (du : entity.User) (w : World) :
  createCalls (snd (call_Create repo ctx du w)) = (createCalls w ++ [du])%list.
Proof. unfold call_Create. rewrite liftRand_createCalls. reflexivity. Qed.

(** [Execute], contract-based, by cases on the hasher and the check. *)
Lemma Execute_eq (uc : use_case.SignUpUseCase) (ctx : Context)
    (input : dto.SignUpInput) (w : World) :
  use_case.Execute uc ctx input w
  = let '((hashed, herr), r') :=
      bcrypt.GenerateFromPassword (dto.Password input) bcrypt.DefaultCost
        (entropy w) in
    match herr with
    | Some err => ((None, Some err), with_entropy w r')
    | None =>
        let du := unpersisted (dto.Email input) hashed in
        match entity.Validate du with
        | Some err => ((None, Some err), with_entropy w r')
        | None =>
            let '((newUser, cerr), w') :=
              call_Create (use_case.userRepo uc) ctx du (with_entropy w r') in
            match cerr with
            | Some err => ((None, Some err), w')
            | None => ((newUser, None), w')
            end
        end
    end.
Proof.
  unfold use_case.Execute, bind, liftRand.
  destruct (bcrypt.GenerateFromPassword _ _ _) as [[hashed [err|]] r'];
    [reflexivity|].
  fold (with_entropy w r'). unfold unpersisted.
  destruct (entity.Validate _); [reflexivity|].
  destruct (call_Create _ _ _ _) as [[newUser [err|]] w']; reflexivity.
Qed.

Lemma legacy_Execute_eq (uc : legacy.SignUpUseCase) (ctx : Context)
    (req : legacy.SignUpRequestDto) (w : World) :
  legacy.Execute uc ctx req w
  = match legacy.Validate req with
    | Some err => ((None, Some err), w)
    | None =>
        use_case.Execute (use_case.NewSignUpUseCase (legacy.userRepo uc)) ctx
          (dto.mkSignUpInput (legacy.Email req) (legacy.Password req)) w
    end.
Proof.
  unfold legacy.Execute, use_case.Execute.
  destruct (legacy.Validate req); reflexivity.
Qed.

Lemma hands_over_nothing (w w' : World) :
  createCalls w' = createCalls w -> hands_over_valid w w'.
Proof.
  intros E. exists []. rewrite app_nil_r. split; [exact E | constructor].
Qed.

Lemma Execute_hands_over_valid (uc : use_case.SignUpUseCase) (ctx : Context)
    (input : dto.SignUpInput) (w : World) :
  hands_over_valid w (snd (use_case.Execute uc ctx input w)).
Proof.
  rewrite Execute_eq.
  destruct (bcrypt.GenerateFromPassword _ _ _) as [[hashed [err|]] r'].
  - apply hands_over_nothing. reflexivity.
  - cbv zeta. destruct (entity.Validate _) as [err|] eqn:V.
    + apply hands_over_nothing. reflexivity.
    + pose proof (call_Create_createCalls (use_case.userRepo uc) ctx
                    (unpersisted (dto.Email input) hashed)
                    (with_entropy w r')) as C.
      destruct (call_Create _ _ _ _) as [[newUser cerr] w'].
      exists [unpersisted (dto.Email input) hashed]. split.
      * destruct cerr; exact C.
      * constructor; [|constructor].
        split; [exact V | apply Validate_None_iff; exact V].
Qed.

Lemma legacy_Execute_hands_over_valid (uc : legacy.SignUpUseCase)
    (ctx : Context) (req : legacy.SignUpRequestDto) (w : World) :
  hands_over_valid w (snd (legacy.Execute uc ctx req w)).
Proof.
  rewrite legacy_Execute_eq. destruct (legacy.Validate req).
  - apply hands_over_nothing. reflexivity.
  - apply Execute_hands_over_valid.
Qed.

End UseCase.

(* ===================================================================== *)
(** ** Characters and bytes *)
(* ===================================================================== *)

Section Characters.

(** A string has at most as many characters as bytes. *)
Lemma count_le_length (s : string) (skip : nat) :
  utf8.count s skip <= String.length s.
Proof.
  revert skip.
  induction s as [|c s IH]; intros skip; cbn [utf8.count String.length];
    [lia|].
  destruct skip as [|k].
  - specialize (IH (utf8.advance (String c s) - 1)). lia.
  - specialize (IH k). lia.
Qed.

Lemma RuneCountInString_le_length (s : string) :
  utf8.RuneCountInString s <= String.length s.
Proof. apply count_le_length. Qed.

Lemma advance_ASCII (c : byte) (s : string) :
  (N_of_ascii c <? utf8.RuneSelf)%N = true -> utf8.advance (String c s) = 1.
Proof.
  intros A. unfold utf8.advance. cbn [utf8.byte_at String.get].
  rewrite A. reflexivity.
Qed.

(** On an ASCII string the characters are the bytes. *)
Lemma RuneCountInString_ASCII (s : string) :
  strings.isASCII s = true -> utf8.RuneCountInString s = String.length s.
Proof.
  unfold utf8.RuneCountInString, strings.isASCII.
  induction s as [|c s IH]; [reflexivity|].
  cbn [list_ascii_of_string forallb utf8.count String.length].
  intros A. apply andb_prop in A as [Ac As].
  rewrite (advance_ASCII c s Ac). cbn [Nat.sub]. rewrite (IH As).
  reflexivity.
Qed.

End Characters.

(* ===================================================================== *)
(** ** The handlers *)
(* ===================================================================== *)

Section Handlers.

Context `{L : Libs} `{C : request.Codec}.

Lemma ToJSON_responds (resWriter : http.ResponseWriter) (v : request.any)
    (code : Z) :
  http.wroteHeader resWriter = false ->
  responds resWriter (request.ToJSON resWriter v code) code v.
Proof.
  intros W. unfold responds, request.ToJSON, http.Write, http.WriteHeader.
  rewrite W. cbn. auto.
Qed.

Lemma SignUp_cases (h : handlers.AuthHandler)
    (resWriter : http.ResponseWriter) (r : http.Request) (w : World) :
  SignUp_outcome h resWriter r w (handlers.SignUp h resWriter r w).
Proof.
  unfold handlers.SignUp.
  destruct (request.FromJSON api.mkSignUpRequest r) as [payload [err|]] eqn:D.
  - eapply decode_failed; eassumption.
  - destruct (api.Validate payload) as [err|] eqn:V.
    + eapply validation_failed; eassumption.
    + unfold bind. fold (input_of payload).
      destruct (use_case.Execute _ _ _ _) as [[user [err|]] w'] eqn:E.
      * eapply execute_failed; eassumption.
      * eapply execute_succeeded; eassumption.
Qed.

Lemma legacy_SignUp_cases (h : module_route.AuthHandler)
    (resWriter : http.ResponseWriter) (r : http.Request) (w : World) :
  legacy_SignUp_outcome h resWriter r w (module_route.SignUp h resWriter r w).
Proof.
  unfold module_route.SignUp.
  destruct (request.FromJSON legacy.mkSignUpRequestDto r)
    as [payload [err|]] eqn:D.
  - eapply legacy_decode_failed; eassumption.
  - unfold bind.
    destruct (legacy.Execute _ _ _ _) as [[user [err|]] w'] eqn:E.
    + eapply legacy_execute_failed; eassumption.
    + eapply legacy_execute_succeeded; eassumption.
Qed.

(** A password of fewer than five characters fails the [min=5] tag. *)
Lemma min5_fails (ns name password : string) :
  utf8.RuneCountInString password < 5 ->
  exists err,
    validator.check ns name [validator.required; validator.min 5] password
    = Some err.
Proof.
  intros Hlt. cbn [validator.check].
  destruct (validator.holds validator.required password); [|eauto].
  cbn [validator.holds].
  destruct (Nat.leb_spec 5 (utf8.RuneCountInString password)); [lia|eauto].
Qed.

Lemma api_Validate_short_password (payload : api.SignUpRequest) :
  utf8.RuneCountInString (api.Password payload) < 5 ->
  exists err, api.Validate payload = Some err.
Proof.
  intros Hlt. unfold api.Validate.
  destruct (validator.check _ _ _ (api.Email payload)); [eauto|].
  apply min5_fails; exact Hlt.
Qed.

Lemma legacy_Validate_short_password (req : legacy.SignUpRequestDto) :
  utf8.RuneCountInString (legacy.Password req) < 5 ->
  exists err, legacy.Validate req = Some err.
Proof.
  intros Hlt. unfold legacy.Validate, validator.Var.
  destruct (validator.check _ _ _ (legacy.Email req)); [eauto|].
  destruct (min5_fails "" "" (legacy.Password req) Hlt) as [err ->]. eauto.
Qed.

Lemma FromJSON_password (r : http.Request)
    (payload : api.SignUpRequest) :
  request.FromJSON api.mkSignUpRequest r = (payload, None) ->
  api.Password payload = snd (fst (request.json_Decode (http.Body r))).
Proof.
  unfold request.FromJSON.
  destruct (_ <? _)%Z; [discriminate|].
  destruct (request.json_Decode (http.Body r)) as [[e p] [err|]];
    [discriminate|].
  intros E. injection E as <-. reflexivity.
Qed.

Lemma legacy_FromJSON_password (r : http.Request)
    (payload : legacy.SignUpRequestDto) :
  request.FromJSON legacy.mkSignUpRequestDto r = (payload, None) ->
  legacy.Password payload = snd (fst (request.json_Decode (http.Body r))).
Proof.
  unfold request.FromJSON.
  destruct (_ <? _)%Z; [discriminate|].
  destruct (request.json_Decode (http.Body r)) as [[e p] [err|]];
    [discriminate|].
  intros E. injection E as <-. reflexivity.
Qed.

(** A payload whose password has fewer than five characters stops at the
    validation of the handler of routes.go: 400, and the world is as it
    was. *)
Lemma SignUp_rejects_short_password (h : handlers.AuthHandler)
    (resWriter : http.ResponseWriter) (r : http.Request) (w : World) :
  http.wroteHeader resWriter = false ->
  utf8.RuneCountInString (snd (fst (request.json_Decode (http.Body r)))) < 5 ->
  http.status (fst (handlers.SignUp h resWriter r w)) = http.StatusBadRequest
  /\ snd (handlers.SignUp h resWriter r w) = w.
Proof.
  intros W Hshort.
  destruct (SignUp_cases h resWriter r w)
    as [payload err D | payload err D V | payload user err w' D V E
       | payload user w' D V E]; cbn [fst snd].
  - split; [apply (ToJSON_responds _ _ _ W) | reflexivity].
  - split; [apply (ToJSON_responds _ _ _ W) | reflexivity].
  - rewrite <- (FromJSON_password _ _ D) in Hshort.
    destruct (api_Validate_short_password payload Hshort). congruence.
  - rewrite <- (FromJSON_password _ _ D) in Hshort.
    destruct (api_Validate_short_password payload Hshort). congruence.
Qed.

(** The same of the handler of module_route, where the use case stops at
    the validation of the request. *)
Lemma legacy_SignUp_rejects_short_password (h : module_route.AuthHandler)
    (resWriter : http.ResponseWriter) (r : http.Request) (w : World) :
  http.wroteHeader resWriter = false ->
  utf8.RuneCountInString (snd (fst (request.json_Decode (http.Body r)))) < 5 ->
  http.status (fst (module_route.SignUp h resWriter r w))
  = http.StatusBadRequest
  /\ snd (module_route.SignUp h resWriter r w) = w.
Proof.
  intros W Hshort.
  destruct (legacy_SignUp_cases h resWriter r w)
    as [payload err D | payload user err w' D E | payload user w' D E];
    cbn [fst snd].
  - split; [apply (ToJSON_responds _ _ _ W) | reflexivity].
  - split; [apply (ToJSON_responds _ _ _ W)|].
    rewrite <- (legacy_FromJSON_password _ _ D) in Hshort.
    destruct (legacy_Validate_short_password payload Hshort) as [e V].
    rewrite legacy_Execute_eq, V in E. injection E as _ _ <-. reflexivity.
  - rewrite <- (legacy_FromJSON_password _ _ D) in Hshort.
    destruct (legacy_Validate_short_password payload Hshort) as [e V].
    rewrite legacy_Execute_eq, V in E. discriminate.
Qed.

(** What the use case wired to the in-memory adapter returns on success:
    an entity whose timestamps are unset. *)
Lemma wired_Execute_success (ctx : Context) (input : dto.SignUpInput)
    (w w' : World) (user : option entity.User) :
  use_case.Execute wired_use_case ctx input w = ((user, None), w') ->
  user = Some (entity.mkUser (v4 (draw (after (entropy w) 16)))
                 (strings.ToLower (dto.Email input))
                 (hash_of (dto.Password input) (entropy w)) zero_Time None)
  /\ String.length (dto.Password input) <= 72
  /\ createCalls w'
     = (createCalls w
        ++ [unpersisted (dto.Email input)
              (hash_of (dto.Password input) (entropy w))])%list.
Proof.
  rewrite Execute_eq, GenerateFromPassword_eq.
  destruct (Nat.ltb_spec 72 (String.length (dto.Password input)));
    [discriminate|].
  cbv zeta. destruct (entity.Validate _); [discriminate|].
  unfold call_Create, liftRand, wired_use_case. cbn.
  intros E. injection E as <- <-. cbn. auto.
Qed.

End Handlers.

(* ===================================================================== *)
(** ** The router and the server lifecycle *)
(* ===================================================================== *)

Section Router.

Context `{L : Libs}.

(** The health route answers 200 and [ok] through the whole middleware
    chain, whatever the handler mounted beside it, the headers of the
    request and the state of the world.  *)
Lemma NewRouter_health (AuthHandler : Handler)
    (hdr : list (string * string)) (addr : string) (id : http.requestID)
    (b : string) (wd : World) :
  fst (chi.ServeHTTP (router.NewRouter AuthHandler) http.newResponse
         (http.mkRequest "GET" "/health" hdr addr id b) wd)
  = http.mkResponse true http.StatusOK "ok".
Proof.
  unfold chi.ServeHTTP, router.NewRouter. cbn.
  unfold middleware.RequestID. cbn.
  destruct (String.eqb (http.Get hdr "X-Request-Id") "");
    unfold middleware.RealIP; cbn;
    destruct (String.eqb (realIP hdr) ""); reflexivity.
Qed.

(** A POST to /api/v1/auth/sign-up reaches the handler mounted by
    [RegisterRoutes], with the body of the request and the entities
    recorded so far unchanged; the logger adds its entry afterwards. *)
Lemma NewRouter_sign_up (h : Handler) (w : http.ResponseWriter)
    (hdr : list (string * string)) (addr : string) (id : http.requestID)
    (b : string) (wd : World) :
  exists r' wd0,
    http.Body r' = b
    /\ createCalls wd0 = createCalls wd
    /\ entropy wd0 = entropy wd
    /\ chi.ServeHTTP (router.NewRouter h) w
         (http.mkRequest "POST" "/api/v1/auth/sign-up" hdr addr id b) wd
       = let (w', wd') := h w r' wd0 in
         (w', mkWorld (entropy wd') (createCalls wd') (reqid wd')
                (logged wd'
                 ++ [("POST", "/api/v1/auth/sign-up", http.status w')])).
Proof.
  unfold chi.ServeHTTP, router.NewRouter. cbn.
  unfold middleware.RequestID. cbn.
  destruct (String.eqb (http.Get hdr "X-Request-Id") "");
    unfold middleware.RealIP; cbn;
    destruct (String.eqb (realIP hdr) "");
    unfold middleware.Logger, middleware.Recoverer; cbn;
    do 2 eexists; (split; [|split; [|split; [|reflexivity]]]); reflexivity.
Qed.

(** What a handler that answers 400 and leaves the world alone gives
    behind the router. *)
Lemma NewRouter_sign_up_rejected (h : Handler) (r : http.Request)
    (wd : World) :
  http.Method r = "POST" ->
  http.Path r = "/api/v1/auth/sign-up" ->
  (forall r' wd0,
     http.Body r' = http.Body r ->
     http.status (fst (h http.newResponse r' wd0)) = http.StatusBadRequest
     /\ snd (h http.newResponse r' wd0) = wd0) ->
  http.status (fst (chi.ServeHTTP (router.NewRouter h) http.newResponse r wd))
  = http.StatusBadRequest
  /\ createCalls (snd (chi.ServeHTTP (router.NewRouter h) http.newResponse
                         r wd)) = createCalls wd.
Proof.
  destruct r as [m p hdr addr id b]. cbn [http.Method http.Path http.Body].
  intros -> -> Hh.
  destruct (NewRouter_sign_up h http.newResponse hdr addr id b wd)
    as (r' & wd0 & Hb & Hc & _ & ->).
  destruct (Hh r' wd0 Hb) as [S N].
  destruct (h http.newResponse r' wd0) as [w' wd']. cbn [fst snd] in *.
  subst wd'. split; [exact S | exact Hc].
Qed.

End Router.

Section Lifecycle.

Variable server : bootstrap.Server.

Lemma StartRestAPI_ctxDone (rest : list bootstrap.Signal) :
  bootstrap.StartRestAPI server (bootstrap.ctxDone :: rest)
  = match bootstrap.Shutdown server 10000000000 with
    | Some err => Some (Some (fmt_Errorf_w "server shutdown: " err))
    | None => Some None
    end.
Proof. reflexivity. Qed.

(** A goroutine that ends without a fatal error wakes nobody: the
    function goes on waiting. *)
Lemma StartRestAPI_quiet (err : option error) (rest : list bootstrap.Signal) :
  bootstrap.sent err = None ->
  bootstrap.StartRestAPI server (bootstrap.listenReturned err :: rest)
  = bootstrap.StartRestAPI server rest.
Proof. intros Q. cbn. rewrite Q. reflexivity. Qed.

Lemma StartRestAPI_fatal (err : error) (rest : list bootstrap.Signal) :
  errors_Is err http.ErrServerClosed = false ->
  bootstrap.StartRestAPI server
    (bootstrap.listenReturned (Some err) :: rest)
  = Some (Some err).
Proof. intros F. cbn. rewrite F. reflexivity. Qed.

End Lifecycle.

(* ===================================================================== *)
(** ** Concrete runs *)
(* ===================================================================== *)

(** The runs are in the sample environment; every theorem after them binds
    its own libraries. *)
#[local] Existing Instance Sample.libs.
#[local] Existing Instance Sample.codec.

(** Five characters on six bytes: the second character is encoded on the
    two bytes C3 A9. *)
Example RuneCountInString_two_byte_rune :
  let s := String "h" (String (ascii_of_nat 195) (String (ascii_of_nat 169)
             "llo")) in
  utf8.RuneCountInString s = 5 /\ String.length s = 6.
Proof. split; reflexivity. Qed.

(** A first byte without its continuation byte counts for itself. *)
Example RuneCountInString_broken_rune :
  utf8.RuneCountInString (String (ascii_of_nat 195) "abc") = 4.
Proof. reflexivity. Qed.

Example ToLower_mixed_case :
  strings.ToLower "Alice@Example.COM" = "alice@example.com".
Proof. reflexivity. Qed.

(** The identifier made of the bytes 0 to 15: byte 6 becomes 0x46 and
    byte 8 becomes 0x88. *)
Example uuid_New_counting :
  map nat_of_ascii (fst (uuid.New Sample.counting))
  = [0; 1; 2; 3; 4; 5; 70; 7; 136; 9; 10; 11; 12; 13; 14; 15].
Proof. reflexivity. Qed.

(** Two calls of [Create] in sequence with the same candidate: when the
    entropy source does not repeat itself the identifiers differ. *)
Example create_twice_distinct :
  let (res1, r1) := infrastructure.Create tt Sample.candidate Sample.counting in
  let (res2, _) := infrastructure.Create tt Sample.candidate r1 in
  option_map entity.ID (fst res1) <> option_map entity.ID (fst res2).
Proof. cbn. discriminate. Qed.

(** A valid sign-up through the router of the container: 201, one entity
    handed to [Create], one entry in the log. *)
Example sign_up_through_router :
  let out :=
    chi.ServeHTTP (bootstrap.Router (fst bootstrap.CreateServerContainer))
      http.newResponse (Sample.post "Bob@x.io secret")
      (Sample.world Sample.counting) in
  fst out = http.mkResponse true 201 "user: bob@x.io"
  /\ map entity.Email (createCalls (snd out)) = ["Bob@x.io"]
  /\ logged (snd out) = [("POST", "/api/v1/auth/sign-up", 201%Z)]
  /\ reqid (snd out) = 1.
Proof. repeat split; reflexivity. Qed.

Example unknown_path_is_404 :
  http.status
    (fst (chi.ServeHTTP (bootstrap.Router (fst bootstrap.CreateServerContainer))
            http.newResponse
            (http.mkRequest "GET" "/api/v1/auth" [] "" http.noID "")
            (Sample.world Sample.zeros))) = 404%Z.
Proof. reflexivity. Qed.

Example get_on_sign_up_is_405 :
  http.status
    (fst (chi.ServeHTTP (bootstrap.Router (fst bootstrap.CreateServerContainer))
            http.newResponse
            (http.mkRequest "GET" "/api/v1/auth/sign-up" [] "" http.noID "")
            (Sample.world Sample.zeros))) = 405%Z.
Proof. reflexivity. Qed.

(** With nothing delivered the function is still waiting; the goroutine
    ending on [ErrServerClosed] does not wake it. *)
Example StartRestAPI_waits :
  bootstrap.StartRestAPI Sample.idle_server [] = None
  /\ bootstrap.StartRestAPI Sample.idle_server
       [bootstrap.listenReturned (Some http.ErrServerClosed)] = None
  /\ bootstrap.StartRestAPI Sample.idle_server
       [bootstrap.listenReturned None; bootstrap.ctxDone] = Some None.
Proof. repeat split; reflexivity. Qed.

(* ===================================================================== *)
(** ** The claims *)
(* ===================================================================== *)

(** C1.  Every entity the sign-up use case hands to the repository's
    [Create] has passed the entity's [Validate], and so satisfies the rule
    (non-empty, email-shaped email; non-empty hashed password), in the
    contract-based variant and in the hand-wired one; and whenever the
    entity [Execute] has constructed fails [Validate], [Execute] returns
    that error at once and [Create] is not invoked. *)
Theorem execute_validates_before_create (L : Libs)
    (repo : contract.UserRepository) (ctx : Context)
    (input : dto.SignUpInput) (req : legacy.SignUpRequestDto) (w : World) :
  hands_over_valid w
    (snd (use_case.Execute (use_case.NewSignUpUseCase repo) ctx input w))
  /\ hands_over_valid w
       (snd (legacy.Execute (legacy.NewSignUpUseCase repo) ctx req w))
  /\ (forall hashed r' err,
        bcrypt.GenerateFromPassword (dto.Password input) bcrypt.DefaultCost
          (entropy w) = ((hashed, None), r') ->
        entity.Validate (unpersisted (dto.Email input) hashed) = Some err ->
        use_case.Execute (use_case.NewSignUpUseCase repo) ctx input w
        = ((None, Some err), with_entropy w r')
        /\ createCalls
             (snd (use_case.Execute (use_case.NewSignUpUseCase repo) ctx
                     input w))
           = createCalls w).
Proof.
  split; [apply Execute_hands_over_valid|].
  split; [apply legacy_Execute_hands_over_valid|].
  intros hashed r' err G V.
  assert (E : use_case.Execute (use_case.NewSignUpUseCase repo) ctx input w
              = ((None, Some err), with_entropy w r')).
  { rewrite Execute_eq, G. cbv zeta. rewrite V. reflexivity. }
  rewrite E. split; reflexivity.
Qed.

Lemma execute_validates_before_create_witness :
  bcrypt.GenerateFromPassword "secret" bcrypt.DefaultCost Sample.counting
  = ((hash_of "secret" Sample.counting, None), after Sample.counting 16)
  /\ entity.Validate
       (unpersisted "not-an-email" (hash_of "secret" Sample.counting))
     = Some (FieldError "User.Email" "Email" "email")
  /\ fst (use_case.Execute
            (use_case.NewSignUpUseCase infrastructure.NewUserRepository) tt
            (dto.mkSignUpInput "not-an-email" "secret")
            (Sample.world Sample.counting))
     = (None, Some (FieldError "User.Email" "Email" "email"))
  /\ createCalls
       (snd (use_case.Execute
               (use_case.NewSignUpUseCase infrastructure.NewUserRepository)
               tt (dto.mkSignUpInput "not-an-email" "secret")
               (Sample.world Sample.counting)))
     = [].
Proof.
  split; [reflexivity|]. split; [reflexivity|].
  destruct (execute_validates_before_create Sample.libs
              infrastructure.NewUserRepository tt
              (dto.mkSignUpInput "not-an-email" "secret")
              (legacy.mkSignUpRequestDto "not-an-email" "secret")
              (Sample.world Sample.counting)) as (_ & _ & H).
  destruct (H (hash_of "secret" Sample.counting) (after Sample.counting 16)
              (FieldError "User.Email" "Email" "email")
              eq_refl eq_refl) as [E N].
  split; [rewrite E; reflexivity | exact N].
Defined.

(** C2.  A sign-up request whose password field has fewer than five
    characters is answered with 400, and the repository's [Create] is not
    called: in the handler of routes.go, which validates the payload
    before it calls the use case, in the handler of module_route, whose
    use case validates the request first, and for a POST to
    /api/v1/auth/sign-up through the router of either container. *)
Theorem short_password_rejected_before_persistence (L : Libs)
    (C : request.Codec) (repo : contract.UserRepository)
    (resWriter : http.ResponseWriter) (r : http.Request) (w : World) :
  http.wroteHeader resWriter = false ->
  utf8.RuneCountInString (snd (fst (request.json_Decode (http.Body r)))) < 5 ->
  let rejected (out : http.ResponseWriter * World) :=
    http.status (fst out) = http.StatusBadRequest
    /\ createCalls (snd out) = createCalls w in
  rejected (handlers.SignUp
              (handlers.NewAuthHandler (use_case.NewSignUpUseCase repo))
              resWriter r w)
  /\ rejected (module_route.SignUp
                 (module_route.NewAuthHandler (legacy.NewSignUpUseCase repo))
                 resWriter r w)
  /\ (http.Method r = "POST" ->
      http.Path r = "/api/v1/auth/sign-up" ->
      rejected (chi.ServeHTTP
                  (bootstrap.Router (fst bootstrap.CreateServerContainer))
                  http.newResponse r w)
      /\ rejected (chi.ServeHTTP
                     (bootstrap.Router
                        (fst bootstrap.app_CreateServerContainer))
                     http.newResponse r w)).
Proof.
  intros W Hshort. cbv zeta. split; [|split].
  - destruct (SignUp_rejects_short_password
                (handlers.NewAuthHandler (use_case.NewSignUpUseCase repo))
                resWriter r w W Hshort) as [S ->].
    split; [exact S | reflexivity].
  - destruct (legacy_SignUp_rejects_short_password
                (module_route.NewAuthHandler (legacy.NewSignUpUseCase repo))
                resWriter r w W Hshort) as [S ->].
    split; [exact S | reflexivity].
  - intros M P. split.
    + apply NewRouter_sign_up_rejected; [exact M | exact P |].
      intros r' wd0 Hb. apply SignUp_rejects_short_password;
        [reflexivity | rewrite Hb; exact Hshort].
    + apply NewRouter_sign_up_rejected; [exact M | exact P |].
      intros r' wd0 Hb. apply legacy_SignUp_rejects_short_password;
        [reflexivity | rewrite Hb; exact Hshort].
Qed.

Lemma short_password_rejected_before_persistence_witness :
  http.wroteHeader http.newResponse = false
  /\ utf8.RuneCountInString
       (snd (fst (request.json_Decode
                    (http.Body (Sample.post "bob@x.io abcd"))))) < 5
  /\ http.status
       (fst (handlers.SignUp wired_handler http.newResponse
               (Sample.post "bob@x.io abcd")
               (Sample.world Sample.counting))) = 400%Z
  /\ createCalls
       (snd (module_route.SignUp wired_legacy_handler http.newResponse
               (Sample.post "bob@x.io abcd")
               (Sample.world Sample.counting))) = []
  /\ http.status
       (fst (chi.ServeHTTP
               (bootstrap.Router (fst bootstrap.CreateServerContainer))
               http.newResponse (Sample.post "bob@x.io abcd")
               (Sample.world Sample.counting))) = 400%Z.
Proof.
  assert (W : http.wroteHeader http.newResponse = false) by reflexivity.
  assert (S : utf8.RuneCountInString
                (snd (fst (request.json_Decode
                             (http.Body (Sample.post "bob@x.io abcd"))))) < 5)
    by (cbn; lia).
  destruct (short_password_rejected_before_persistence Sample.libs
              Sample.codec infrastructure.NewUserRepository
              http.newResponse (Sample.post "bob@x.io abcd")
              (Sample.world Sample.counting) W S) as ([S1 _] & [_ N2] & R).
  destruct (R eq_refl eq_refl) as [[S3 _] _].
  split; [exact W|]. split; [exact S|]. split; [exact S1|].
  split; [exact N2 | exact S3].
Defined.

(** C3, as amended.  [Create] of the in-memory adapter always returns a nil
    error and an entity whose identifier is made of the next 16 bytes of
    the entropy source, whatever identifier the caller supplied; on two
    calls in sequence, also with identical candidates, the two identifiers
    are equal exactly when the two draws agree on their random bits (all
    bits but the version and variant bits the adapter's library fixes). *)
Theorem create_identifier_is_the_random_draw (L : Libs) (ctx : Context)
    (du1 du2 : entity.User) (r : Rand) :
  exists u1 u2,
    infrastructure.Create ctx du1 r = ((Some u1, None), after r 16)
    /\ infrastructure.Create ctx du2 (after r 16)
       = ((Some u2, None), after (after r 16) 16)
    /\ entity.ID u1 = v4 (draw r)
    /\ entity.ID u2 = v4 (draw (after r 16))
    /\ (entity.ID u1 = entity.ID u2
        <-> random_bits (draw r) = random_bits (draw (after r 16))).
Proof.
  do 2 eexists. rewrite !Create_eq. cbn [entity.ID].
  repeat split; try reflexivity; apply v4_draw_eq_iff.
Qed.

(** C3, as stated, fails: when the entropy source repeats a draw, two
    calls in sequence return the same identifier, and it is the one the
    caller supplied. *)
Lemma create_identifier_can_repeat : ~ create_always_fresh.
Proof.
  intros F.
  specialize (F tt Sample.candidate Sample.candidate Sample.zeros).
  rewrite !Create_eq in F.
  destruct F as (u1 & u2 & E1 & E2 & _ & _ & N).
  injection E1 as <-. injection E2 as <-.
  apply N. reflexivity.
Qed.

(** C4.  The entity [Create] returns carries the lower-case form of the
    candidate's email and the candidate's hashed password unchanged; the
    identifier and the timestamps the caller supplied play no part in the
    result. *)
Theorem create_lowercases_email_keeps_hash (L : Libs) (ctx : Context)
    (du : entity.User) (r : Rand) :
  exists u,
    fst (infrastructure.Create ctx du r) = (Some u, None)
    /\ entity.Email u = strings.ToLower (entity.Email du)
    /\ entity.HashedPassword u = entity.HashedPassword du
    /\ (forall id createdAt updatedAt,
          infrastructure.Create ctx
            (entity.mkUser id (entity.Email du) (entity.HashedPassword du)
               createdAt updatedAt) r
          = infrastructure.Create ctx du r)
    /\ (strings.isASCII (entity.Email du) = true ->
        strings.hasUpper (entity.Email u) = false).
Proof.
  eexists. rewrite Create_eq. cbn [fst entity.Email entity.HashedPassword].
  repeat split. apply ToLower_ASCII_no_upper.
Qed.

Lemma create_lowercases_email_keeps_hash_witness :
  strings.isASCII (entity.Email Sample.candidate) = true
  /\ exists u,
       fst (infrastructure.Create tt Sample.candidate Sample.counting)
       = (Some u, None)
       /\ entity.Email u = "alice@example.com"
       /\ entity.HashedPassword u = "$2a$10$abc"
       /\ strings.hasUpper (entity.Email u) = false.
Proof.
  split; [reflexivity|].
  destruct (create_lowercases_email_keeps_hash Sample.libs tt
              Sample.candidate Sample.counting)
    as (u & E & Em & Hp & _ & Up).
  exists u. repeat split.
  - exact E.
  - rewrite Em. reflexivity.
  - rewrite Hp. reflexivity.
  - apply Up. reflexivity.
Defined.

(** C5.  [SignUp] maps its outcomes exhaustively.  When decoding fails, or
    the use case returns an error, it answers 400 with the map that holds
    the error's message under [error]; when the use case succeeds it
    answers 201 with the entity the use case returned; it writes no status
    other than 400 and 201.  This holds of the handler of routes.go and of
    the handler of module_route. *)
Theorem sign_up_answers_400_or_201 (L : Libs) (C : request.Codec)
    (h : handlers.AuthHandler) (hl : module_route.AuthHandler)
    (resWriter : http.ResponseWriter) (r : http.Request) (w : World) :
  http.wroteHeader resWriter = false ->
  ((forall payload err,
      request.FromJSON api.mkSignUpRequest r = (payload, Some err) ->
      responds resWriter (fst (handlers.SignUp h resWriter r w))
        http.StatusBadRequest (request.errorMap (Error err)))
   /\ (forall payload user err w',
         request.FromJSON api.mkSignUpRequest r = (payload, None) ->
         api.Validate payload = None ->
         use_case.Execute (handlers.signUpUseCase h) tt (input_of payload) w
         = ((user, Some err), w') ->
         responds resWriter (fst (handlers.SignUp h resWriter r w))
           http.StatusBadRequest (request.errorMap (Error err)))
   /\ (forall payload user w',
         request.FromJSON api.mkSignUpRequest r = (payload, None) ->
         api.Validate payload = None ->
         use_case.Execute (handlers.signUpUseCase h) tt (input_of payload) w
         = ((user, None), w') ->
         responds resWriter (fst (handlers.SignUp h resWriter r w))
           http.StatusCreated (request.userPtr user))
   /\ (http.status (fst (handlers.SignUp h resWriter r w))
       = http.StatusBadRequest
       \/ http.status (fst (handlers.SignUp h resWriter r w))
          = http.StatusCreated))
  /\ ((forall payload err,
         request.FromJSON legacy.mkSignUpRequestDto r = (payload, Some err) ->
         responds resWriter (fst (module_route.SignUp hl resWriter r w))
           http.StatusBadRequest (request.errorMap (Error err)))
      /\ (forall payload user err w',
            request.FromJSON legacy.mkSignUpRequestDto r = (payload, None) ->
            legacy.Execute (module_route.signUpUseCase hl) tt payload w
            = ((user, Some err), w') ->
            responds resWriter (fst (module_route.SignUp hl resWriter r w))
              http.StatusBadRequest (request.errorMap (Error err)))
      /\ (forall payload user w',
            request.FromJSON legacy.mkSignUpRequestDto r = (payload, None) ->
            legacy.Execute (module_route.signUpUseCase hl) tt payload w
            = ((user, None), w') ->
            responds resWriter (fst (module_route.SignUp hl resWriter r w))
              http.StatusCreated (request.userPtr user))
      /\ (http.status (fst (module_route.SignUp hl resWriter r w))
          = http.StatusBadRequest
          \/ http.status (fst (module_route.SignUp hl resWriter r w))
             = http.StatusCreated)).
Proof.
  intros W. split.
  - repeat apply conj.
    + intros payload err D. unfold handlers.SignUp. rewrite D.
      apply ToJSON_responds; exact W.
    + intros payload user err w' D V E. unfold handlers.SignUp, bind.
      rewrite D, V. fold (input_of payload). rewrite E.
      apply ToJSON_responds; exact W.
    + intros payload user w' D V E. unfold handlers.SignUp, bind.
      rewrite D, V. fold (input_of payload). rewrite E.
      apply ToJSON_responds; exact W.
    + destruct (SignUp_cases h resWriter r w); cbn [fst];
        solve [ left; apply (ToJSON_responds _ _ _ W)
              | right; apply (ToJSON_responds _ _ _ W) ].
  - repeat apply conj.
    + intros payload err D. unfold module_route.SignUp. rewrite D.
      apply ToJSON_responds; exact W.
    + intros payload user err w' D E. unfold module_route.SignUp, bind.
      rewrite D, E. apply ToJSON_responds; exact W.
    + intros payload user w' D E. unfold module_route.SignUp, bind.
      rewrite D, E. apply ToJSON_responds; exact W.
    + destruct (legacy_SignUp_cases hl resWriter r w); cbn [fst];
        solve [ left; apply (ToJSON_responds _ _ _ W)
              | right; apply (ToJSON_responds _ _ _ W) ].
Qed.

Lemma sign_up_answers_400_or_201_witness :
  http.wroteHeader http.newResponse = false
  /\ request.FromJSON api.mkSignUpRequest (Sample.post "no-space")
     = (api.mkSignUpRequest "" "",
        Some (errorString "unexpected end of JSON input"))
  /\ responds http.newResponse
       (fst (handlers.SignUp wired_handler http.newResponse
               (Sample.post "no-space") (Sample.world Sample.counting)))
       400 (request.errorMap "unexpected end of JSON input")
  /\ responds http.newResponse
       (fst (handlers.SignUp
               (handlers.NewAuthHandler
                  (use_case.NewSignUpUseCase Sample.failing))
               http.newResponse (Sample.post "bob@x.io secret")
               (Sample.world Sample.counting)))
       400 (request.errorMap "write rejected")
  /\ (http.status
        (fst (module_route.SignUp wired_legacy_handler http.newResponse
                (Sample.post "bob@x.io secret")
                (Sample.world Sample.counting))) = 400%Z
      \/ http.status
           (fst (module_route.SignUp wired_legacy_handler http.newResponse
                   (Sample.post "bob@x.io secret")
                   (Sample.world Sample.counting))) = 201%Z).
Proof.
  assert (W : http.wroteHeader http.newResponse = false) by reflexivity.
  split; [exact W|]. split; [reflexivity|]. split; [|split].
  - destruct (sign_up_answers_400_or_201 Sample.libs Sample.codec
                wired_handler wired_legacy_handler http.newResponse
                (Sample.post "no-space") (Sample.world Sample.counting) W)
      as [(D & _) _].
    exact (D _ _ eq_refl).
  - destruct (sign_up_answers_400_or_201 Sample.libs Sample.codec
                (handlers.NewAuthHandler
                   (use_case.NewSignUpUseCase Sample.failing))
                wired_legacy_handler http.newResponse
                (Sample.post "bob@x.io secret")
                (Sample.world Sample.counting) W)
      as [(_ & F & _) _].
    exact (F (api.mkSignUpRequest "bob@x.io" "secret") None
             (errorString "write rejected") _ eq_refl eq_refl eq_refl).
  - destruct (sign_up_answers_400_or_201 Sample.libs Sample.codec
                wired_handler wired_legacy_handler http.newResponse
                (Sample.post "bob@x.io secret")
                (Sample.world Sample.counting) W)
      as [_ (_ & _ & _ & S)].
    exact S.
Defined.

(** C6.  When the password hasher fails, [Execute] returns the hasher's
    error itself, with no entity, and [Create] is not invoked: in the
    contract-based variant, and in the hand-wired one once the request has
    passed its own validation. *)
Theorem hasher_failure_short_circuits (L : Libs)
    (repo : contract.UserRepository) (ctx : Context)
    (input : dto.SignUpInput) (req : legacy.SignUpRequestDto) (w : World) :
  (forall hashed err r',
     bcrypt.GenerateFromPassword (dto.Password input) bcrypt.DefaultCost
       (entropy w) = ((hashed, Some err), r') ->
     use_case.Execute (use_case.NewSignUpUseCase repo) ctx input w
     = ((None, Some err), with_entropy w r')
     /\ createCalls
          (snd (use_case.Execute (use_case.NewSignUpUseCase repo) ctx input
                  w)) = createCalls w)
  /\ (forall hashed err r',
        legacy.Validate req = None ->
        bcrypt.GenerateFromPassword (legacy.Password req) bcrypt.DefaultCost
          (entropy w) = ((hashed, Some err), r') ->
        legacy.Execute (legacy.NewSignUpUseCase repo) ctx req w
        = ((None, Some err), with_entropy w r')
        /\ createCalls
             (snd (legacy.Execute (legacy.NewSignUpUseCase repo) ctx req w))
           = createCalls w).
Proof.
  split.
  - intros hashed err r' G.
    assert (E : use_case.Execute (use_case.NewSignUpUseCase repo) ctx input w
                = ((None, Some err), with_entropy w r')).
    { rewrite Execute_eq, G. reflexivity. }
    rewrite E. split; reflexivity.
  - intros hashed err r' V G.
    assert (E : legacy.Execute (legacy.NewSignUpUseCase repo) ctx req w
                = ((None, Some err), with_entropy w r')).
    { rewrite legacy_Execute_eq, V, Execute_eq. cbn [dto.Password].
      rewrite G. reflexivity. }
    rewrite E. split; reflexivity.
Qed.

Lemma hasher_failure_short_circuits_witness :
  bcrypt.GenerateFromPassword Sample.long_password bcrypt.DefaultCost
    Sample.counting
  = (("", Some bcrypt.ErrPasswordTooLong), Sample.counting)
  /\ legacy.Validate (legacy.mkSignUpRequestDto "bob@x.io" Sample.long_password)
     = None
  /\ fst (use_case.Execute wired_use_case tt
            (dto.mkSignUpInput "bob@x.io" Sample.long_password)
            (Sample.world Sample.counting))
     = (None, Some bcrypt.ErrPasswordTooLong)
  /\ fst (legacy.Execute
            (legacy.NewSignUpUseCase infrastructure.NewUserRepository) tt
            (legacy.mkSignUpRequestDto "bob@x.io" Sample.long_password)
            (Sample.world Sample.counting))
     = (None, Some bcrypt.ErrPasswordTooLong).
Proof.
  split; [reflexivity|]. split; [reflexivity|].
  destruct (hasher_failure_short_circuits Sample.libs
              infrastructure.NewUserRepository tt
              (dto.mkSignUpInput "bob@x.io" Sample.long_password)
              (legacy.mkSignUpRequestDto "bob@x.io" Sample.long_password)
              (Sample.world Sample.counting)) as [H1 H2].
  destruct (H1 "" bcrypt.ErrPasswordTooLong Sample.counting eq_refl)
    as [E1 _].
  destruct (H2 "" bcrypt.ErrPasswordTooLong Sample.counting eq_refl eq_refl)
    as [E2 _].
  split; [unfold wired_use_case; rewrite E1 | rewrite E2]; reflexivity.
Defined.

(** C7.  A GET request to /health is answered with 200 and the body [ok]:
    for every handler mounted beside the health route, every header,
    address and body of the request, every state of the world (entropy,
    earlier calls, request counter, log), and for the router of either
    container, before and after the container is closed. *)
Theorem health_answers_200_ok (L : Libs) (C : request.Codec)
    (AuthHandler : Handler) (hdr : list (string * string)) (addr : string)
    (id : http.requestID) (b : string) (wd : World) :
  let r := http.mkRequest "GET" "/health" hdr addr id b in
  let answer (mx : chi.Mux) := fst (chi.ServeHTTP mx http.newResponse r wd) in
  let ok (resp : http.ResponseWriter) :=
    http.status resp = http.StatusOK /\ http.body resp = "ok" in
  ok (answer (router.NewRouter AuthHandler))
  /\ ok (answer (bootstrap.Router (fst bootstrap.CreateServerContainer)))
  /\ ok (answer (bootstrap.Router
                   (bootstrap.Close (fst bootstrap.CreateServerContainer))))
  /\ ok (answer (bootstrap.Router (fst bootstrap.app_CreateServerContainer)))
  /\ ok (answer (bootstrap.Router
                   (bootstrap.Close
                      (fst bootstrap.app_CreateServerContainer)))).
Proof.
  cbv zeta.
  unfold bootstrap.CreateServerContainer, bootstrap.InitializeContainer,
    bootstrap.app_CreateServerContainer, bootstrap.ProvideContainer,
    bootstrap.ProvideRouter, bootstrap.BootstrapHandler, bootstrap.Close.
  cbn [bootstrap.Router fst].
  rewrite !NewRouter_health. cbn [http.status http.body].
  repeat split; reflexivity.
Qed.

(** C8.  When the cancellation of the context is the first thing to
    arrive, [StartRestAPI] calls [Shutdown] with a window of ten seconds;
    it returns nil when [Shutdown] returns nil, and otherwise the error of
    [Shutdown] wrapped under the prefix [server shutdown: ].  When an error
    of the listener other than [ErrServerClosed] arrives first, that error
    is returned as it is. *)
Theorem StartRestAPI_shuts_down_or_fails (server : bootstrap.Server)
    (rest : list bootstrap.Signal) :
  (10 * bootstrap.Second = 10000000000)%Z
  /\ (bootstrap.Shutdown server (10 * bootstrap.Second) = None ->
      bootstrap.StartRestAPI server (bootstrap.ctxDone :: rest) = Some None)
  /\ (forall err,
        bootstrap.Shutdown server (10 * bootstrap.Second) = Some err ->
        exists wrapped,
          bootstrap.StartRestAPI server (bootstrap.ctxDone :: rest)
          = Some (Some wrapped)
          /\ Unwrap wrapped = Some err
          /\ Error wrapped = "server shutdown: " ++ Error err)
  /\ (forall err,
        errors_Is err http.ErrServerClosed = false ->
        bootstrap.StartRestAPI server
          (bootstrap.listenReturned (Some err) :: rest)
        = Some (Some err)).
Proof.
  split; [reflexivity|]. split; [|split].
  - intros S. rewrite StartRestAPI_ctxDone.
    change 10000000000%Z with (10 * bootstrap.Second)%Z. rewrite S. reflexivity.
  - intros err S. rewrite StartRestAPI_ctxDone.
    change 10000000000%Z with (10 * bootstrap.Second)%Z. rewrite S.
    eexists. split; [reflexivity|]. split; reflexivity.
  - intros err F. apply StartRestAPI_fatal; exact F.
Qed.

Lemma StartRestAPI_shuts_down_or_fails_witness :
  bootstrap.StartRestAPI Sample.idle_server [bootstrap.ctxDone] = Some None
  /\ (exists wrapped,
        bootstrap.StartRestAPI Sample.slow_server
          [bootstrap.ctxDone; bootstrap.listenReturned
                                (Some http.ErrServerClosed)]
        = Some (Some wrapped)
        /\ Unwrap wrapped = Some (errorString "context deadline exceeded")
        /\ Error wrapped = "server shutdown: context deadline exceeded")
  /\ bootstrap.StartRestAPI Sample.idle_server
       [bootstrap.listenReturned
          (Some (errorString "listen tcp :8080: bind: address already in use"));
        bootstrap.ctxDone]
     = Some (Some (errorString
                     "listen tcp :8080: bind: address already in use")).
Proof.
  split; [|split].
  - exact (proj1 (proj2 (StartRestAPI_shuts_down_or_fails
                           Sample.idle_server [])) eq_refl).
  - exact (proj1 (proj2 (proj2 (StartRestAPI_shuts_down_or_fails
                                  Sample.slow_server
                                  [bootstrap.listenReturned
                                     (Some http.ErrServerClosed)])))
             (errorString "context deadline exceeded") eq_refl).
  - exact (proj2 (proj2 (proj2 (StartRestAPI_shuts_down_or_fails
                                  Sample.idle_server [bootstrap.ctxDone])))
             (errorString "listen tcp :8080: bind: address already in use")
             eq_refl).
Defined.

(** C9.  The entity [Create] of the in-memory adapter returns has its
    timestamps unset: createdAt is the zero time and updatedAt is absent;
    so the entity in the body of a 201 answer of either handler, wired to
    this adapter, has them unset too. *)
Theorem created_entity_has_unset_timestamps (L : Libs) (C : request.Codec)
    (ctx : Context) (du : entity.User) (r : Rand)
    (resWriter : http.ResponseWriter) (rq : http.Request) (w : World) :
  (exists u,
     fst (infrastructure.Create ctx du r) = (Some u, None)
     /\ entity.CreatedAt u = zero_Time
     /\ IsZero (entity.CreatedAt u) = true
     /\ entity.UpdatedAt u = None)
  /\ (http.wroteHeader resWriter = false ->
      http.status (fst (handlers.SignUp wired_handler resWriter rq w))
      = http.StatusCreated ->
      exists u,
        http.body (fst (handlers.SignUp wired_handler resWriter rq w))
        = http.body resWriter ++ request.json_Encode (request.userPtr (Some u))
        /\ entity.CreatedAt u = zero_Time
        /\ entity.UpdatedAt u = None)
  /\ (http.wroteHeader resWriter = false ->
      http.status
        (fst (module_route.SignUp wired_legacy_handler resWriter rq w))
      = http.StatusCreated ->
      exists u,
        http.body
          (fst (module_route.SignUp wired_legacy_handler resWriter rq w))
        = http.body resWriter ++ request.json_Encode (request.userPtr (Some u))
        /\ entity.CreatedAt u = zero_Time
        /\ entity.UpdatedAt u = None).
Proof.
  split; [|split].
  - eexists. rewrite Create_eq. cbn. auto.
  - intros W S.
    destruct (SignUp_cases wired_handler resWriter rq w)
      as [payload err D | payload err D V | payload user err w' D V E
         | payload user w' D V E]; cbn [fst] in *;
      try (destruct (ToJSON_responds resWriter
                       (request.errorMap (Error err)) http.StatusBadRequest W)
             as (_ & S' & _); rewrite S' in S; discriminate).
    destruct (wired_Execute_success _ _ _ _ _ E) as (-> & _ & _).
    eexists. split; [apply (ToJSON_responds _ _ _ W)|]. split; reflexivity.
  - intros W S.
    destruct (legacy_SignUp_cases wired_legacy_handler resWriter rq w)
      as [payload err D | payload user err w' D E | payload user w' D E];
      cbn [fst] in *;
      try (destruct (ToJSON_responds resWriter
                       (request.errorMap (Error err)) http.StatusBadRequest W)
             as (_ & S' & _); rewrite S' in S; discriminate).
    rewrite legacy_Execute_eq in E.
    destruct (legacy.Validate payload); [discriminate|].
    destruct (wired_Execute_success _ _ _ _ _ E) as (-> & _ & _).
    eexists. split; [apply (ToJSON_responds _ _ _ W)|]. split; reflexivity.
Qed.

Lemma created_entity_has_unset_timestamps_witness :
  http.wroteHeader http.newResponse = false
  /\ http.status
       (fst (handlers.SignUp wired_handler http.newResponse
               (Sample.post "Bob@x.io secret")
               (Sample.world Sample.counting))) = 201%Z
  /\ exists u,
       http.body
         (fst (handlers.SignUp wired_handler http.newResponse
                 (Sample.post "Bob@x.io secret")
                 (Sample.world Sample.counting)))
       = "" ++ request.json_Encode (request.userPtr (Some u))
       /\ entity.CreatedAt u = zero_Time
       /\ entity.UpdatedAt u = None.
Proof.
  split; [reflexivity|]. split; [reflexivity|].
  exact (proj1 (proj2 (created_entity_has_unset_timestamps Sample.libs
                         Sample.codec tt Sample.candidate Sample.counting
                         http.newResponse (Sample.post "Bob@x.io secret")
                         (Sample.world Sample.counting)))
           eq_refl eq_refl).
Defined.

(** C10, as amended.  The contract-based [Execute] applies no password
    rule of its own: for every input with a non-empty, email-shaped email
    and a password of at most 72 bytes, however short, it succeeds and
    persists a user whose hashed password is not empty; a password of more
    than 72 bytes is refused by the hasher and nothing is persisted. *)
Theorem execute_accepts_passwords_up_to_72_bytes (L : Libs) (ctx : Context)
    (input : dto.SignUpInput) (w : World) :
  dto.Email input <> "" ->
  isEmail (dto.Email input) = true ->
  (String.length (dto.Password input) <= 72 ->
   exists u w',
     use_case.Execute wired_use_case ctx input w = ((Some u, None), w')
     /\ createCalls w'
        = (createCalls w
           ++ [unpersisted (dto.Email input)
                 (hash_of (dto.Password input) (entropy w))])%list
     /\ entity.HashedPassword u = hash_of (dto.Password input) (entropy w)
     /\ entity.HashedPassword u <> ""
     /\ entity.Email u = strings.ToLower (dto.Email input))
  /\ (72 < String.length (dto.Password input) ->
      fst (use_case.Execute wired_use_case ctx input w)
      = (None, Some bcrypt.ErrPasswordTooLong)
      /\ createCalls (snd (use_case.Execute wired_use_case ctx input w))
         = createCalls w).
Proof.
  intros Hne Hem. split.
  - intros Hlen.
    assert (V : entity.Validate
                  (unpersisted (dto.Email input)
                     (hash_of (dto.Password input) (entropy w))) = None).
    { apply Validate_None_iff. repeat split; try assumption.
      apply hash_of_not_empty. }
    rewrite Execute_eq, GenerateFromPassword_eq.
    destruct (Nat.ltb_spec 72 (String.length (dto.Password input))); [lia|].
    cbv zeta. rewrite V.
    unfold call_Create, liftRand, wired_use_case. cbn.
    do 2 eexists. split; [reflexivity|]. cbn.
    repeat split. apply hash_of_not_empty.
  - intros Hlen.
    rewrite Execute_eq, GenerateFromPassword_eq.
    destruct (Nat.ltb_spec 72 (String.length (dto.Password input))); [|lia].
    split; reflexivity.
Qed.

Lemma execute_accepts_passwords_up_to_72_bytes_witness :
  "bob@x.io" <> ""
  /\ isEmail "bob@x.io" = true
  /\ String.length "" <= 72
  /\ exists u,
       fst (use_case.Execute wired_use_case tt (dto.mkSignUpInput "bob@x.io" "")
              (Sample.world Sample.counting)) = (Some u, None)
       /\ entity.HashedPassword u <> "".
Proof.
  assert (N : "bob@x.io" <> "") by discriminate.
  assert (E : isEmail "bob@x.io" = true) by reflexivity.
  assert (S : String.length "" <= 72) by (cbn; lia).
  split; [exact N|]. split; [exact E|]. split; [exact S|].
  destruct (proj1 (execute_accepts_passwords_up_to_72_bytes Sample.libs tt
                     (dto.mkSignUpInput "bob@x.io" "")
                     (Sample.world Sample.counting) N E) S)
    as (u & w' & X & _ & _ & H & _).
  exists u. split; [rewrite X; reflexivity | exact H].
Defined.

(** C10, as stated, fails: with a well-shaped email and a password of 73
    bytes [Execute] returns the hasher's error. *)
Lemma execute_rejects_long_password : ~ execute_accepts_any_password.
Proof.
  intros A.
  destruct (A tt (dto.mkSignUpInput "bob@x.io" Sample.long_password)
              (Sample.world Sample.counting)) as [u E];
    [discriminate | reflexivity | discriminate].
Qed.

(* ===================================================================== *)
(** ** Further properties of the use case *)
(* ===================================================================== *)

(** X1.  When the hasher and the entity's check pass and the repository's
    [Create] reports an error, [Execute] returns that error itself and no
    entity, also when the repository returned an entity with the error;
    [Create] was called once, with the unpersisted entity. *)
Theorem execute_surfaces_repository_error (L : Libs)
    (repo : contract.UserRepository) (ctx : Context)
    (input : dto.SignUpInput) (w : World) (hashed : string) (r1 r2 : Rand)
    (user : option entity.User) (err : error) :
  bcrypt.GenerateFromPassword (dto.Password input) bcrypt.DefaultCost
    (entropy w) = ((hashed, None), r1) ->
  entity.Validate (unpersisted (dto.Email input) hashed) = None ->
  contract.Create repo ctx (unpersisted (dto.Email input) hashed) r1
  = ((user, Some err), r2) ->
  use_case.Execute (use_case.NewSignUpUseCase repo) ctx input w
  = ((None, Some err),
     mkWorld r2
       (createCalls w ++ [unpersisted (dto.Email input) hashed])
       (reqid w) (logged w)).
Proof.
  intros G V R. rewrite Execute_eq, G. cbv zeta. rewrite V.
  unfold call_Create, liftRand. cbn. rewrite R. reflexivity.
Qed.

Lemma execute_surfaces_repository_error_witness :
  bcrypt.GenerateFromPassword "secret" bcrypt.DefaultCost Sample.counting
  = ((hash_of "secret" Sample.counting, None), after Sample.counting 16)
  /\ entity.Validate (unpersisted "bob@x.io" (hash_of "secret" Sample.counting))
     = None
  /\ fst (use_case.Execute (use_case.NewSignUpUseCase Sample.failing) tt
            (dto.mkSignUpInput "bob@x.io" "secret")
            (Sample.world Sample.counting))
     = (None, Some (errorString "write rejected")).
Proof.
  split; [reflexivity|]. split; [reflexivity|].
  rewrite (execute_surfaces_repository_error Sample.libs Sample.failing tt
             (dto.mkSignUpInput "bob@x.io" "secret")
             (Sample.world Sample.counting)
             (hash_of "secret" Sample.counting) (after Sample.counting 16)
             (after Sample.counting 16) None (errorString "write rejected")
             eq_refl eq_refl eq_refl).
  reflexivity.
Defined.

(** X2.  [Execute] never returns an entity together with an error, whatever
    the repository behind the interface returns; this holds of both
    variants. *)
Theorem execute_never_returns_entity_with_error (L : Libs)
    (repo : contract.UserRepository) (ctx : Context)
    (input : dto.SignUpInput) (req : legacy.SignUpRequestDto) (w : World) :
  (forall u err,
     fst (use_case.Execute (use_case.NewSignUpUseCase repo) ctx input w)
     <> (Some u, Some err))
  /\ (forall u err,
        fst (legacy.Execute (legacy.NewSignUpUseCase repo) ctx req w)
        <> (Some u, Some err)).
Proof.
  assert (A : forall uc i, forall u err,
             fst (use_case.Execute uc ctx i w) <> (Some u, Some err)).
  { intros uc i u err. rewrite Execute_eq.
    destruct (bcrypt.GenerateFromPassword _ _ _) as [[hashed [e|]] r'];
      [discriminate|].
    cbv zeta. destruct (entity.Validate _); [discriminate|].
    destruct (call_Create _ _ _ _) as [[newUser [e|]] w']; discriminate. }
  split; [apply A|].
  intros u err. rewrite legacy_Execute_eq.
  destruct (legacy.Validate req); [discriminate | apply A].
Qed.

(** X3.  When the repository's [Create] reports no error, [Execute] returns
    exactly the pointer [Create] returned, a nil pointer included, and a
    nil error. *)
Theorem execute_returns_what_create_returns (L : Libs)
    (repo : contract.UserRepository) (ctx : Context)
    (input : dto.SignUpInput) (w : World) (hashed : string) (r1 r2 : Rand)
    (user : option entity.User) :
  bcrypt.GenerateFromPassword (dto.Password input) bcrypt.DefaultCost
    (entropy w) = ((hashed, None), r1) ->
  entity.Validate (unpersisted (dto.Email input) hashed) = None ->
  contract.Create repo ctx (unpersisted (dto.Email input) hashed) r1
  = ((user, None), r2) ->
  fst (use_case.Execute (use_case.NewSignUpUseCase repo) ctx input w)
  = (user, None).
Proof.
  intros G V R. rewrite Execute_eq, G. cbv zeta. rewrite V.
  unfold call_Create, liftRand. cbn. rewrite R. reflexivity.
Qed.

Lemma execute_returns_what_create_returns_witness :
  let silent := contract.mkUserRepository (fun _ _ => ret (None, None)) in
  bcrypt.GenerateFromPassword "secret" bcrypt.DefaultCost Sample.counting
  = ((hash_of "secret" Sample.counting, None), after Sample.counting 16)
  /\ entity.Validate (unpersisted "bob@x.io" (hash_of "secret" Sample.counting))
     = None
  /\ fst (use_case.Execute (use_case.NewSignUpUseCase silent) tt
            (dto.mkSignUpInput "bob@x.io" "secret")
            (Sample.world Sample.counting))
     = (None, None).
Proof.
  cbv zeta. split; [reflexivity|]. split; [reflexivity|].
  exact (execute_returns_what_create_returns Sample.libs
           (contract.mkUserRepository (fun _ _ => ret (None, None))) tt
           (dto.mkSignUpInput "bob@x.io" "secret")
           (Sample.world Sample.counting)
           (hash_of "secret" Sample.counting) (after Sample.counting 16)
           (after Sample.counting 16) None eq_refl eq_refl eq_refl).
Defined.

Lemma hash_of_prefix {L : Libs} (password : string) (r : Rand) :
  String.prefix "$2a$10$" (hash_of password r) = true.
Proof.
  unfold hash_of.
  generalize (bcrypt_digest (draw r) password bcrypt.DefaultCost).
  intros d. destruct d; reflexivity.
Qed.

(** X4.  One call of [Execute] calls [Create] at most once, and what it
    hands over is the unpersisted entity: the nil identifier, the email of
    the input as it was given (not lower-cased), a hashed password that
    starts with the bcrypt prefix for cost 10, and unset timestamps. *)
Theorem execute_calls_create_at_most_once (L : Libs)
    (repo : contract.UserRepository) (ctx : Context)
    (input : dto.SignUpInput) (w : World) :
  exists added,
    createCalls
      (snd (use_case.Execute (use_case.NewSignUpUseCase repo) ctx input w))
    = (createCalls w ++ added)%list
    /\ length added <= 1
    /\ Forall (fun du =>
                 entity.ID du = uuid.Nil
                 /\ entity.Email du = dto.Email input
                 /\ String.prefix "$2a$10$" (entity.HashedPassword du) = true
                 /\ entity.CreatedAt du = zero_Time
                 /\ entity.UpdatedAt du = None) added.
Proof.
  rewrite Execute_eq, GenerateFromPassword_eq.
  destruct (72 <? String.length (dto.Password input))%nat.
  - exists []. rewrite app_nil_r. cbn. repeat split; [lia | constructor].
  - cbv zeta. destruct (entity.Validate _).
    + exists []. rewrite app_nil_r. cbn. repeat split; [lia | constructor].
    + pose proof (call_Create_createCalls
                    (use_case.userRepo (use_case.NewSignUpUseCase repo)) ctx
                    (unpersisted (dto.Email input)
                       (hash_of (dto.Password input) (entropy w)))
                    (with_entropy w (after (entropy w) 16))) as C.
      destruct (call_Create _ _ _ _) as [[newUser cerr] w'].
      eexists. split; [destruct cerr; exact C|].
      split; [cbn; lia|].
      constructor; [|constructor]. cbn [unpersisted entity.ID entity.Email
        entity.HashedPassword entity.CreatedAt entity.UpdatedAt].
      repeat split. apply hash_of_prefix.
Qed.

(** X5.  The use case of the hand-wired variant is the validation of the
    request followed by the contract-based use case: a request that fails
    [Validate] gets that error and leaves the world as it was, and a
    request that passes gets exactly the result and the world the
    contract-based [Execute] gives on the same email and password. *)
Theorem legacy_execute_is_validate_then_execute (L : Libs)
    (repo : contract.UserRepository) (ctx : Context)
    (req : legacy.SignUpRequestDto) (w : World) :
  (forall err,
     legacy.Validate req = Some err ->
     legacy.Execute (legacy.NewSignUpUseCase repo) ctx req w
     = ((None, Some err), w))
  /\ (legacy.Validate req = None ->
      legacy.Execute (legacy.NewSignUpUseCase repo) ctx req w
      = use_case.Execute (use_case.NewSignUpUseCase repo) ctx
          (dto.mkSignUpInput (legacy.Email req) (legacy.Password req)) w).
Proof.
  split; [intros err V | intros V]; rewrite legacy_Execute_eq, V; reflexivity.
Qed.

Lemma legacy_execute_is_validate_then_execute_witness :
  legacy.Validate (legacy.mkSignUpRequestDto "bob@x.io" "abcd")
  = Some (FieldError "" "" "min")
  /\ legacy.Validate (legacy.mkSignUpRequestDto "bob@x.io" "secret") = None
  /\ fst (legacy.Execute
            (legacy.NewSignUpUseCase infrastructure.NewUserRepository) tt
            (legacy.mkSignUpRequestDto "bob@x.io" "abcd")
            (Sample.world Sample.counting))
     = (None, Some (FieldError "" "" "min"))
  /\ legacy.Execute
       (legacy.NewSignUpUseCase infrastructure.NewUserRepository) tt
       (legacy.mkSignUpRequestDto "bob@x.io" "secret")
       (Sample.world Sample.counting)
     = use_case.Execute wired_use_case tt
         (dto.mkSignUpInput "bob@x.io" "secret")
         (Sample.world Sample.counting).
Proof.
  split; [reflexivity|]. split; [reflexivity|]. split.
  - rewrite (proj1 (legacy_execute_is_validate_then_execute Sample.libs
                      infrastructure.NewUserRepository tt
                      (legacy.mkSignUpRequestDto "bob@x.io" "abcd")
                      (Sample.world Sample.counting))
               (FieldError "" "" "min") eq_refl).
    reflexivity.
  - exact (proj2 (legacy_execute_is_validate_then_execute Sample.libs
                    infrastructure.NewUserRepository tt
                    (legacy.mkSignUpRequestDto "bob@x.io" "secret")
                    (Sample.world Sample.counting)) eq_refl).
Defined.

Lemma min_holds_not_empty {L : Libs} (n : nat) (s : string) :
  0 < n -> validator.holds (validator.min n) s = true -> s <> "".
Proof.
  intros Hn H ->. cbn [validator.holds] in H. apply Nat.leb_le in H.
  cbn in H. lia.
Qed.

(** X6.  [SignUpRequestDto.Validate] accepts a request exactly when its
    email is non-empty and email-shaped and its password has at least five
    characters; the [required] tag on the password adds nothing to
    [min=5]. *)
Theorem legacy_validate_accepts_iff (L : Libs)
    (req : legacy.SignUpRequestDto) :
  legacy.Validate req = None
  <-> legacy.Email req <> ""
      /\ isEmail (legacy.Email req) = true
      /\ 5 <= utf8.RuneCountInString (legacy.Password req).
Proof.
  unfold legacy.Validate, validator.Var. cbn [validator.check].
  destruct (validator.holds validator.required (legacy.Email req)) eqn:R1.
  - apply required_holds_iff in R1.
    destruct (validator.holds validator.email (legacy.Email req)) eqn:E.
    + cbn in E.
      destruct (validator.holds validator.required (legacy.Password req))
        eqn:R2.
      * destruct (validator.holds (validator.min 5) (legacy.Password req))
          eqn:M.
        -- cbn [validator.holds] in M. apply Nat.leb_le in M. tauto.
        -- cbn [validator.holds] in M. apply Nat.leb_gt in M.
           split; [discriminate | intros (_ & _ & H); lia].
      * split; [discriminate|]. intros (_ & _ & H).
        assert (N : legacy.Password req <> "").
        { apply (min_holds_not_empty 5); [lia|]. cbn [validator.holds].
          apply Nat.leb_le, H. }
        apply required_holds_iff in N. congruence.
    + cbn in E. split; [discriminate | intros (_ & H & _); congruence].
  - split; [discriminate|]. intros (H & _).
    apply required_holds_iff in H. congruence.
Qed.

(** X7.  [SignUpRequestDto.Validate] reports the first rule that fails,
    the email's before the password's, and its error names the rule but
    not the field: an empty email and an empty password beside a valid
    email give the same error. *)
Theorem legacy_validate_reports_first_failure (L : Libs) (e p : string) :
  legacy.Validate (legacy.mkSignUpRequestDto "" p)
  = Some (FieldError "" "" "required")
  /\ (e <> "" -> isEmail e = false ->
      legacy.Validate (legacy.mkSignUpRequestDto e p)
      = Some (FieldError "" "" "email"))
  /\ (e <> "" -> isEmail e = true ->
      legacy.Validate (legacy.mkSignUpRequestDto e "")
      = legacy.Validate (legacy.mkSignUpRequestDto "" p))
  /\ (e <> "" -> isEmail e = true -> p <> "" ->
      utf8.RuneCountInString p < 5 ->
      legacy.Validate (legacy.mkSignUpRequestDto e p)
      = Some (FieldError "" "" "min")).
Proof.
  unfold legacy.Validate, validator.Var.
  cbn [validator.check legacy.Email legacy.Password].
  split; [reflexivity|].
  split; [|split].
  - intros Ne E. apply required_holds_iff in Ne. rewrite Ne.
    cbn [validator.holds]. rewrite E. reflexivity.
  - intros Ne E. apply required_holds_iff in Ne. rewrite Ne.
    cbn [validator.holds]. rewrite E. reflexivity.
  - intros Ne E Np S. apply required_holds_iff in Ne, Np. rewrite Ne, Np.
    cbn [validator.holds validator.tag_name]. rewrite E.
    destruct (Nat.leb_spec 5 (utf8.RuneCountInString p)); [lia|reflexivity].
Qed.

Lemma legacy_validate_reports_first_failure_witness :
  "bob@x.io" <> "" /\ isEmail "bob@x.io" = true
  /\ isEmail "not-an-email" = false /\ "abcd" <> ""
  /\ utf8.RuneCountInString "abcd" < 5
  /\ legacy.Validate (legacy.mkSignUpRequestDto "not-an-email" "abcd")
     = Some (FieldError "" "" "email")
  /\ legacy.Validate (legacy.mkSignUpRequestDto "bob@x.io" "")
     = legacy.Validate (legacy.mkSignUpRequestDto "" "abcd")
  /\ legacy.Validate (legacy.mkSignUpRequestDto "bob@x.io" "abcd")
     = Some (FieldError "" "" "min").
Proof.
  assert (N1 : "bob@x.io" <> "") by discriminate.
  assert (N2 : "not-an-email" <> "") by discriminate.
  assert (N3 : "abcd" <> "") by discriminate.
  assert (S : utf8.RuneCountInString "abcd" < 5) by (cbn; lia).
  split; [exact N1|]. split; [reflexivity|]. split; [reflexivity|].
  split; [exact N3|]. split; [exact S|].
  split; [|split].
  - exact (proj1 (proj2 (legacy_validate_reports_first_failure Sample.libs
                           "not-an-email" "abcd")) N2 eq_refl).
  - exact (proj1 (proj2 (proj2 (legacy_validate_reports_first_failure
                                  Sample.libs "bob@x.io" "abcd")))
             N1 eq_refl).
  - exact (proj2 (proj2 (proj2 (legacy_validate_reports_first_failure
                                  Sample.libs "bob@x.io" "abcd")))
             N1 eq_refl N3 S).
Defined.

(** X8.  The contract-based [Execute] hashes before it validates: when the
    entity's check fails on a password the hasher takes, the salt has been
    drawn (16 bytes of entropy are gone) although nothing is persisted.
    The hand-wired [Execute] validates first: a request that fails
    [Validate] leaves the entropy source where it was. *)
Theorem execute_hashes_before_it_validates (L : Libs)
    (repo : contract.UserRepository) (ctx : Context)
    (input : dto.SignUpInput) (req : legacy.SignUpRequestDto) (w : World) :
  (forall err,
     String.length (dto.Password input) <= 72 ->
     entity.Validate
       (unpersisted (dto.Email input)
          (hash_of (dto.Password input) (entropy w))) = Some err ->
     use_case.Execute (use_case.NewSignUpUseCase repo) ctx input w
     = ((None, Some err), with_entropy w (after (entropy w) 16)))
  /\ (forall err,
        legacy.Validate req = Some err ->
        entropy (snd (legacy.Execute (legacy.NewSignUpUseCase repo) ctx
                        req w)) = entropy w).
Proof.
  split.
  - intros err Hlen V. rewrite Execute_eq, GenerateFromPassword_eq.
    destruct (Nat.ltb_spec 72 (String.length (dto.Password input))); [lia|].
    cbv zeta. rewrite V. reflexivity.
  - intros err V. rewrite legacy_Execute_eq, V. reflexivity.
Qed.

Lemma execute_hashes_before_it_validates_witness :
  String.length "secret" <= 72
  /\ entity.Validate
       (unpersisted "not-an-email" (hash_of "secret" Sample.counting))
     = Some (FieldError "User.Email" "Email" "email")
  /\ legacy.Validate (legacy.mkSignUpRequestDto "not-an-email" "secret")
     = Some (FieldError "" "" "email")
  /\ pos (entropy
            (snd (use_case.Execute wired_use_case tt
                    (dto.mkSignUpInput "not-an-email" "secret")
                    (Sample.world Sample.counting)))) = 16
  /\ pos (entropy
            (snd (legacy.Execute
                    (legacy.NewSignUpUseCase infrastructure.NewUserRepository)
                    tt (legacy.mkSignUpRequestDto "not-an-email" "secret")
                    (Sample.world Sample.counting)))) = 0.
Proof.
  assert (Hlen : String.length "secret" <= 72) by (cbn; lia).
  split; [exact Hlen|]. split; [reflexivity|]. split; [reflexivity|].
  destruct (execute_hashes_before_it_validates Sample.libs
              infrastructure.NewUserRepository tt
              (dto.mkSignUpInput "not-an-email" "secret")
              (legacy.mkSignUpRequestDto "not-an-email" "secret")
              (Sample.world Sample.counting)) as [H1 H2].
  split.
  - unfold wired_use_case.
    rewrite (H1 (FieldError "User.Email" "Email" "email") Hlen eq_refl).
    reflexivity.
  - rewrite (H2 (FieldError "" "" "email") eq_refl). reflexivity.
Defined.

(* ===================================================================== *)
(** ** Further properties of the in-memory adapter *)
(* ===================================================================== *)

Lemma version_nibble (c : byte) :
  (N_of_ascii (byte_and_or c 0x0f 0x40) / 16 = 4)%N.
Proof. destruct c as [[] [] [] [] [] [] [] []]; reflexivity. Qed.

Lemma variant_top_bits (c : byte) :
  (N_of_ascii (byte_and_or c 0x3f 0x80) / 64 = 2)%N.
Proof. destruct c as [[] [] [] [] [] [] [] []]; reflexivity. Qed.

(** X9.  The identifier [Create] assigns is a well-formed random
    identifier: 16 bytes, version 4 in the high half of byte 6 and variant
    10 in the two high bits of byte 8.  So it is never the nil identifier,
    which is the one the unpersisted entity of [Execute] carries. *)
Theorem create_identifier_is_version_4 (L : Libs) (ctx : Context)
    (du : entity.User) (r : Rand) :
  exists u,
    fst (infrastructure.Create ctx du r) = (Some u, None)
    /\ length (entity.ID u) = 16
    /\ (N_of_ascii (nth 6 (entity.ID u) zero_byte) / 16 = 4)%N
    /\ (N_of_ascii (nth 8 (entity.ID u) zero_byte) / 64 = 2)%N
    /\ entity.ID u <> uuid.Nil
    /\ (forall email hashed,
          entity.ID u <> entity.ID (unpersisted email hashed)).
Proof.
  eexists. rewrite Create_eq. cbn [fst entity.ID].
  split; [reflexivity|].
  unfold v4, draw. cbn [seq map uuid.update length nth].
  split; [reflexivity|].
  split; [apply version_nibble|].
  split; [apply variant_top_bits|].
  assert (N : forall a0 a1 a2 a3 a4 a5 a6 a7 a8 a9 a10 a11 a12 a13 a14 a15,
             [a0; a1; a2; a3; a4; a5; byte_and_or a6 0x0f 0x40; a7;
              byte_and_or a8 0x3f 0x80; a9; a10; a11; a12; a13; a14; a15]
             <> uuid.Nil).
  { intros. intros E. injection E as _ _ _ _ _ _ E6 _.
    pose proof (version_nibble a6) as V. rewrite E6 in V. discriminate V. }
  split; [apply N | intros email hashed; apply N].
Qed.

Lemma lowerByte_ASCII (c : byte) :
  (N_of_ascii c <? utf8.RuneSelf)%N = true ->
  (N_of_ascii (strings.lowerByte c) <? utf8.RuneSelf)%N = true.
Proof. destruct c as [[] [] [] [] [] [] [] []]; intros H; exact H || reflexivity. Qed.

Lemma isASCII_mapBytes_lower (s : string) :
  strings.isASCII s = true ->
  strings.isASCII (strings.mapBytes strings.lowerByte s) = true.
Proof.
  unfold strings.isASCII.
  induction s as [|c s IH]; [reflexivity|].
  cbn [strings.mapBytes list_ascii_of_string forallb].
  intros A. apply andb_prop in A as [Ac As].
  rewrite (lowerByte_ASCII c Ac), (IH As). reflexivity.
Qed.

Lemma length_mapBytes (f : byte -> byte) (s : string) :
  String.length (strings.mapBytes f s) = String.length s.
Proof. induction s as [|c s IH]; cbn; congruence. Qed.

Lemma ToLower_ASCII_is_ASCII {L : Libs} (s : string) :
  strings.isASCII s = true -> strings.isASCII (strings.ToLower s) = true.
Proof.
  intros A. unfold strings.ToLower. rewrite A.
  destruct (strings.hasUpper s); cbn [negb];
    [apply isASCII_mapBytes_lower|]; exact A.
Qed.

Lemma ToLower_fixed_point {L : Libs} (s : string) :
  strings.isASCII s = true -> strings.hasUpper s = false ->
  strings.ToLower s = s.
Proof. intros A U. unfold strings.ToLower. rewrite A, U. reflexivity. Qed.

(** X10.  The normalization of [Create] is idempotent on ASCII emails and
    keeps their length: an entity that [Create] returned, handed to
    [Create] again, comes back with the same email. *)
Theorem create_normalization_is_idempotent (L : Libs) (ctx : Context)
    (du : entity.User) (r r' : Rand) :
  strings.isASCII (entity.Email du) = true ->
  exists u u',
    fst (infrastructure.Create ctx du r) = (Some u, None)
    /\ fst (infrastructure.Create ctx u r') = (Some u', None)
    /\ entity.Email u' = entity.Email u
    /\ String.length (entity.Email u) = String.length (entity.Email du).
Proof.
  intros A. do 2 eexists. rewrite !Create_eq. cbn [fst entity.Email].
  split; [reflexivity|]. split; [reflexivity|]. split.
  - apply ToLower_fixed_point;
      [apply ToLower_ASCII_is_ASCII | apply ToLower_ASCII_no_upper]; exact A.
  - unfold strings.ToLower. rewrite A.
    destruct (strings.hasUpper (entity.Email du)); cbn [negb];
      [apply length_mapBytes | reflexivity].
Qed.

Lemma create_normalization_is_idempotent_witness :
  strings.isASCII (entity.Email Sample.candidate) = true
  /\ exists u u',
       fst (infrastructure.Create tt Sample.candidate Sample.counting)
       = (Some u, None)
       /\ fst (infrastructure.Create tt u Sample.zeros) = (Some u', None)
       /\ entity.Email u' = entity.Email u
       /\ String.length (entity.Email u) = 17.
Proof.
  split; [reflexivity|].
  destruct (create_normalization_is_idempotent Sample.libs tt
              Sample.candidate Sample.counting Sample.zeros eq_refl)
    as (u & u' & E1 & E2 & Eq & Len).
  exists u, u'.
  split; [exact E1|]. split; [exact E2|]. split; [exact Eq | exact Len].
Defined.

(* ===================================================================== *)
(** ** Further properties of the router *)
(* ===================================================================== *)

(** The routing table [NewRouter] and [RegisterRoutes] build. *)
Lemma routeHTTP_NewRouter {L : Libs} (h : Handler) (w : http.ResponseWriter)
    (r : http.Request) :
  chi.routeHTTP (router.NewRouter h) w r
  = if String.eqb "/health" (http.Path r)
    then if String.eqb "GET" (http.Method r)
         then router.health w r else chi.MethodNotAllowed w r
    else if String.eqb "/api/v1/auth/sign-up" (http.Path r)
         then if String.eqb "POST" (http.Method r)
              then h w r else chi.MethodNotAllowed w r
         else chi.NotFound w r.
Proof.
  unfold chi.routeHTTP, router.NewRouter. cbn -[String.eqb].
  destruct (String.eqb_spec "/health" (http.Path r)) as [P1|P1];
    destruct (String.eqb_spec "/api/v1/auth/sign-up" (http.Path r)) as [P2|P2];
    try (rewrite <- P1 in P2; discriminate P2); cbn -[String.eqb];
    destruct (String.eqb "GET" (http.Method r));
    destruct (String.eqb "POST" (http.Method r)); reflexivity.
Qed.

(** The middleware chain of [NewRouter], outermost first. *)
Lemma ServeHTTP_NewRouter {L : Libs} (h : Handler) :
  chi.ServeHTTP (router.NewRouter h)
  = middleware.RequestID
      (middleware.RealIP
         (middleware.Logger
            (middleware.Recoverer (chi.routeHTTP (router.NewRouter h))))).
Proof. reflexivity. Qed.

(** Unfolds the chain and splits on the headers, the path and the method
    of the request. *)
Ltac route_cases r :=
  rewrite ?ServeHTTP_NewRouter;
  unfold middleware.RequestID, middleware.RealIP, middleware.Logger,
    middleware.Recoverer, middleware.withRequestID, middleware.withRemoteAddr;
  rewrite ?routeHTTP_NewRouter; cbn -[String.eqb];
  destruct (String.eqb (http.Get (http.Header r) "X-Request-Id") "");
  cbn -[String.eqb];
  destruct (String.eqb (realIP (http.Header r)) "");
  rewrite ?routeHTTP_NewRouter; cbn -[String.eqb];
  destruct (String.eqb_spec "/health" (http.Path r));
  destruct (String.eqb_spec "/api/v1/auth/sign-up" (http.Path r));
  destruct (String.eqb_spec "GET" (http.Method r));
  destruct (String.eqb_spec "POST" (http.Method r)).

(** X11.  The sign-up handler is reached by a POST to
    /api/v1/auth/sign-up and by nothing else: the answer to any other
    request, and the world after it, are the same whatever handler is
    mounted, no entity is handed to [Create] and no entropy is drawn. *)
Theorem router_reaches_sign_up_only_by_post (L : Libs) (h1 h2 : Handler)
    (w : http.ResponseWriter) (r : http.Request) (wd : World) :
  ~ (http.Method r = "POST" /\ http.Path r = "/api/v1/auth/sign-up") ->
  chi.ServeHTTP (router.NewRouter h1) w r wd
  = chi.ServeHTTP (router.NewRouter h2) w r wd
  /\ createCalls (snd (chi.ServeHTTP (router.NewRouter h1) w r wd))
     = createCalls wd
  /\ entropy (snd (chi.ServeHTTP (router.NewRouter h1) w r wd)) = entropy wd.
Proof.
  intros N. route_cases r;
    try (exfalso; apply N; split; congruence);
    cbn; repeat split; reflexivity.
Qed.

Lemma router_reaches_sign_up_only_by_post_witness :
  let r := http.mkRequest "GET" "/api/v1/auth/sign-up" [] "" http.noID
             "bob@x.io secret" in
  ~ (http.Method r = "POST" /\ http.Path r = "/api/v1/auth/sign-up")
  /\ createCalls
       (snd (chi.ServeHTTP (router.NewRouter (handlers.SignUp wired_handler))
               http.newResponse r (Sample.world Sample.counting))) = []
  /\ pos (entropy
            (snd (chi.ServeHTTP
                    (router.NewRouter (handlers.SignUp wired_handler))
                    http.newResponse r (Sample.world Sample.counting)))) = 0.
Proof.
  cbv zeta.
  assert (N : ~ (http.Method
                   (http.mkRequest "GET" "/api/v1/auth/sign-up" [] ""
                      http.noID "bob@x.io secret") = "POST"
                 /\ http.Path
                      (http.mkRequest "GET" "/api/v1/auth/sign-up" [] ""
                         http.noID "bob@x.io secret")
                    = "/api/v1/auth/sign-up"))
    by (intros [M _]; discriminate M).
  split; [exact N|].
  destruct (router_reaches_sign_up_only_by_post Sample.libs
              (handlers.SignUp wired_handler) (handlers.SignUp wired_handler)
              http.newResponse
              (http.mkRequest "GET" "/api/v1/auth/sign-up" [] "" http.noID
                 "bob@x.io secret")
              (Sample.world Sample.counting) N) as (_ & C & E).
  split; [exact C | rewrite E; reflexivity].
Defined.



(* ===================================================================== *)
(** ** Further properties of the server lifecycle *)
(* ===================================================================== *)

Lemma quiet_sent (s : bootstrap.Signal) :
  quiet s -> exists err, s = bootstrap.listenReturned err
                         /\ bootstrap.sent err = None.
Proof.
  intros [-> | (err & -> & Q)].
  - exists None. split; reflexivity.
  - exists (Some err). split; [reflexivity|]. cbn. rewrite Q. reflexivity.
Qed.

(** X13.  [StartRestAPI] returns on the cancellation of the context or on
    a fatal error of the listener, and on nothing else: while the listener
    has only returned nil or an error that is, or wraps,
    [http.ErrServerClosed], the function is still waiting, and what
    arrives later decides alone. *)
Theorem StartRestAPI_waits_through_quiet_returns (server : bootstrap.Server)
    (before rest : list bootstrap.Signal) :
  Forall quiet before ->
  bootstrap.StartRestAPI server before = None
  /\ bootstrap.StartRestAPI server (before ++ rest)
     = bootstrap.StartRestAPI server rest.
Proof.
  induction 1 as [|s before Q _ IH].
  - split; reflexivity.
  - destruct (quiet_sent s Q) as (err & -> & S).
    cbn [app]. rewrite !StartRestAPI_quiet by exact S. exact IH.
Qed.

Lemma StartRestAPI_waits_through_quiet_returns_witness :
  let closed := wrapError "accept: http: Server closed" http.ErrServerClosed in
  Forall quiet [bootstrap.listenReturned None;
                bootstrap.listenReturned (Some closed)]
  /\ bootstrap.StartRestAPI Sample.slow_server
       [bootstrap.listenReturned None; bootstrap.listenReturned (Some closed)]
     = None
  /\ bootstrap.StartRestAPI Sample.idle_server
       [bootstrap.listenReturned None; bootstrap.listenReturned (Some closed);
        bootstrap.ctxDone]
     = Some None.
Proof.
  cbv zeta.
  assert (Q : Forall quiet
                [bootstrap.listenReturned None;
                 bootstrap.listenReturned
                   (Some (wrapError "accept: http: Server closed"
                            http.ErrServerClosed))]).
  { constructor; [left; reflexivity|].
    constructor; [|constructor].
    right. eexists. split; reflexivity. }
  split; [exact Q|]. split.
  - exact (proj1 (StartRestAPI_waits_through_quiet_returns
                    Sample.slow_server _ [] Q)).
  - exact (proj2 (StartRestAPI_waits_through_quiet_returns
                    Sample.idle_server _ [bootstrap.ctxDone] Q)).
Defined.

(** X14.  Whatever arrives, [StartRestAPI] returns nil only after the
    context was cancelled and [Shutdown], given ten seconds, returned nil;
    an error it returns is either the error of that [Shutdown] wrapped
    under [server shutdown: ], or an error the listener returned that
    [errors.Is] does not match with [http.ErrServerClosed]. *)
Theorem StartRestAPI_returns_only_three_ways (server : bootstrap.Server)
    (arrivals : list bootstrap.Signal) (result : option error) :
  bootstrap.StartRestAPI server arrivals = Some result ->
  (result = None
   /\ In bootstrap.ctxDone arrivals
   /\ bootstrap.Shutdown server 10000000000 = None)
  \/ (exists cause,
        result = Some (fmt_Errorf_w "server shutdown: " cause)
        /\ In bootstrap.ctxDone arrivals
        /\ bootstrap.Shutdown server 10000000000 = Some cause)
  \/ (exists err,
        result = Some err
        /\ In (bootstrap.listenReturned (Some err)) arrivals
        /\ errors_Is err http.ErrServerClosed = false).
Proof.
  induction arrivals as [|s arrivals IH]; [discriminate|].
  destruct s as [|err].
  - rewrite StartRestAPI_ctxDone.
    destruct (bootstrap.Shutdown server 10000000000) as [cause|] eqn:S;
      intros E; injection E as <-.
    + right; left. exists cause. repeat split. left; reflexivity.
    + left. repeat split. left; reflexivity.
  - cbn [bootstrap.StartRestAPI]. destruct err as [err|]; cbn [bootstrap.sent].
    + destruct (errors_Is err http.ErrServerClosed) eqn:C; cbn [negb].
      * intros E. destruct (IH E) as [(R & I & S) | [(c & R & I & S) | (e & R & I & F)]].
        -- left. repeat split; [exact R | right; exact I | exact S].
        -- right; left. exists c. repeat split; [exact R | right; exact I | exact S].
        -- right; right. exists e. repeat split; [exact R | right; exact I | exact F].
      * intros E. injection E as <-. right; right. exists err.
        repeat split; [left; reflexivity | exact C].
    + intros E. destruct (IH E) as [(R & I & S) | [(c & R & I & S) | (e & R & I & F)]].
      * left. repeat split; [exact R | right; exact I | exact S].
      * right; left. exists c. repeat split; [exact R | right; exact I | exact S].
      * right; right. exists e. repeat split; [exact R | right; exact I | exact F].
Qed.

Lemma StartRestAPI_returns_only_three_ways_witness :
  let arrivals :=
    [bootstrap.listenReturned (Some http.ErrServerClosed);
     bootstrap.ctxDone] in
  let result :=
    Some (fmt_Errorf_w "server shutdown: "
            (errorString "context deadline exceeded")) in
  bootstrap.StartRestAPI Sample.slow_server arrivals = Some result
  /\ ((result = None
       /\ In bootstrap.ctxDone arrivals
       /\ bootstrap.Shutdown Sample.slow_server 10000000000 = None)
      \/ (exists cause,
            result = Some (fmt_Errorf_w "server shutdown: " cause)
            /\ In bootstrap.ctxDone arrivals
            /\ bootstrap.Shutdown Sample.slow_server 10000000000
               = Some cause)
      \/ (exists err,
            result = Some err
            /\ In (bootstrap.listenReturned (Some err)) arrivals
            /\ errors_Is err http.ErrServerClosed = false)).
Proof.
  cbv zeta. split; [reflexivity|].
  exact (StartRestAPI_returns_only_three_ways Sample.slow_server
           [bootstrap.listenReturned (Some http.ErrServerClosed);
            bootstrap.ctxDone]
           (Some (fmt_Errorf_w "server shutdown: "
                    (errorString "context deadline exceeded")))
           eq_refl).
Defined.

(* ===================================================================== *)
(** ** Configuration *)
(* ===================================================================== *)

#[local] Existing Instance Sample.strconv.
#[local] Existing Instance Sample.tokens.

Section Config.

Context `{S : config.Strconv}.

(** What envconfig does with a field, by the value found for its tag. *)
Lemma lookupField_eq (env : config.Env) (prefix name tag def : string)
    (req : bool) :
  tag <> "" ->
  config.lookupField env (config.gatherInfo prefix name tag def req)
  = match config_value env prefix tag with
    | Some v => config.found v
    | None =>
        if String.eqb def "" then
          if req
          then config.missing
                 (errorString ("required key " ++ tag ++ " missing value"))
          else config.skip
        else config.found def
    end.
Proof.
  intros T. apply String.eqb_neq in T.
  unfold config.lookupField, config.gatherInfo, config_value.
  cbn [config.Key config.Alt config.default config.required].
  rewrite T. cbn [negb].
  destruct (env (prefix ++ "_" ++ tag)) as [v|].
  - cbn. rewrite andb_false_r. reflexivity.
  - destruct (env tag) as [v|].
    + cbn. rewrite andb_false_r. reflexivity.
    + cbn. destruct (String.eqb def ""); cbn; [destruct req|]; reflexivity.
Qed.

Lemma lookupField_ext (e1 e2 : config.Env) (info : config.varInfo) :
  (forall k, e1 k = e2 k) ->
  config.lookupField e1 info = config.lookupField e2 info.
Proof.
  intros E. unfold config.lookupField. rewrite !E. reflexivity.
Qed.

(** [Load] reads its environment at the keys of the fields only. *)
Lemma Load_ext (e1 e2 : config.Env) :
  (forall k, e1 k = e2 k) -> config.Load None e1 = config.Load None e2.
Proof.
  intros E. unfold config.Load, config.Process_App, config.Process_DB,
    config.processInt, config.processString, config.godotenv_Load.
  rewrite !(lookupField_ext e1 e2 _ E). reflexivity.
Qed.

Lemma processString_eq (env : config.Env) (prefix name tag : string) :
  tag <> "" ->
  config.processString env (config.gatherInfo prefix name tag "" true) ""
  = match config_value env prefix tag with
    | Some v => (v, None)
    | None =>
        ("", Some (errorString ("required key " ++ tag ++ " missing value")))
    end.
Proof.
  intros T. unfold config.processString. rewrite (lookupField_eq _ _ _ _ _ _ T).
  destruct (config_value env prefix tag); reflexivity.
Qed.

Lemma processInt_eq (env : config.Env) (prefix name tag def : string) :
  tag <> "" -> def <> "" ->
  config.processInt env (config.gatherInfo prefix name tag def false) 0
  = let value := match config_value env prefix tag with
                 | Some v => v
                 | None => def
                 end in
    let (n, err) := config.ParseInt value in
    match err with
    | Some err =>
        (0%Z, Some (config.ParseError
                      (config.gatherInfo prefix name tag def false) "int"
                      value err))
    | None => (n, None)
    end.
Proof.
  intros T D. apply String.eqb_neq in D.
  unfold config.processInt. rewrite (lookupField_eq _ _ _ _ _ _ T), D.
  destruct (config_value env prefix tag); reflexivity.
Qed.

Lemma Process_DB_eq (env : config.Env) :
  config.Process_DB env
  = let (host, err) :=
      config.processString env
        (config.gatherInfo "DB" "Host" "DB_HOST" "" true) "" in
    match err with
    | Some err => (config.mkDBConfig host 0 "" "" "", Some err)
    | None =>
        let (port, err) :=
          config.processInt env
            (config.gatherInfo "DB" "Port" "DB_PORT" "5432" false) 0 in
        match err with
        | Some err => (config.mkDBConfig host port "" "" "", Some err)
        | None =>
            let (name, err) :=
              config.processString env
                (config.gatherInfo "DB" "DatabaseName" "DB_NAME" "" true) "" in
            match err with
            | Some err => (config.mkDBConfig host port name "" "", Some err)
            | None =>
                let (user, err) :=
                  config.processString env
                    (config.gatherInfo "DB" "Username" "DB_USERNAME" "" true)
                    "" in
                match err with
                | Some err =>
                    (config.mkDBConfig host port name user "", Some err)
                | None =>
                    let (password, err) :=
                      config.processString env
                        (config.gatherInfo "DB" "Password" "DB_PASSWORD" ""
                           true) "" in
                    (config.mkDBConfig host port name user password, err)
                end
            end
        end
    end.
Proof. reflexivity. Qed.

(** Without one of the four required keys [Process_DB] has an error. *)
Lemma Process_DB_missing (env : config.Env) (tag : string) :
  In tag ["DB_HOST"; "DB_NAME"; "DB_USERNAME"; "DB_PASSWORD"] ->
  config_value env "DB" tag = None ->
  exists err, snd (config.Process_DB env) = Some err.
Proof.
  intros I M. rewrite Process_DB_eq.
  rewrite !processString_eq by discriminate.
  destruct I as [<- | [<- | [<- | [<- | []]]]]; rewrite M;
    repeat match goal with
      | |- context [config_value env "DB" ?t] =>
          destruct (config_value env "DB" t)
      | |- context [config.processInt ?e ?i ?o] =>
          destruct (config.processInt e i o) as [? [?|]]
      end; cbn; eauto.
Qed.

End Config.

Lemma prefix_app_literal (p s : string) :
  String.prefix p (p ++ s) = true.
Proof.
  induction p as [|c p IH]; cbn.
  - destruct s; reflexivity.
  - destruct (ascii_dec c c); [exact IH | congruence].
Qed.

(** X15.  [Load] needs each of DB_HOST, DB_NAME, DB_USERNAME and
    DB_PASSWORD: when one of them is set neither under its own name nor
    with the prefix DB_, in the environment or in the file .env, [Load]
    returns no configuration and an error.  When it is DB_HOST, the error
    is that of the APP section, or it names DB_HOST under the prefix
    [load DB config: ]. *)
Theorem Load_needs_every_required_key (S : config.Strconv)
    (dotenv : option config.Env) (env : config.Env) (tag : string) :
  In tag ["DB_HOST"; "DB_NAME"; "DB_USERNAME"; "DB_PASSWORD"] ->
  config_value (config.godotenv_Load dotenv env) "DB" tag = None ->
  (exists err, config.Load dotenv env = (None, Some err))
  /\ (tag = "DB_HOST" ->
      exists err,
        config.Load dotenv env = (None, Some err)
        /\ (String.prefix "load APP config: " (Error err) = true
            \/ err = fmt_Errorf_w "load DB config: "
                       (errorString "required key DB_HOST missing value"))).
Proof.
  intros I M. unfold config.Load.
  destruct (config.Process_App (config.godotenv_Load dotenv env))
    as [app [aerr|]].
  - split; [eauto|]. intros _. eexists. split; [reflexivity|].
    left. apply prefix_app_literal.
  - destruct (Process_DB_missing _ tag I M) as [err E]. split.
    + destruct (config.Process_DB (config.godotenv_Load dotenv env))
        as [db [derr|]]; [eauto | discriminate E].
    + intros ->. rewrite Process_DB_eq, processString_eq by discriminate.
      rewrite M. eexists. split; [reflexivity|]. right. reflexivity.
Qed.

Lemma Load_needs_every_required_key_witness :
  let env := Sample.environ [("DB_HOST", "localhost"); ("DB_NAME", "app");
                             ("DB_PASSWORD", "secret")] in
  In "DB_USERNAME" ["DB_HOST"; "DB_NAME"; "DB_USERNAME"; "DB_PASSWORD"]
  /\ config_value (config.godotenv_Load None env) "DB" "DB_USERNAME" = None
  /\ exists err, config.Load None env = (None, Some err).
Proof.
  cbv zeta.
  assert (I : In "DB_USERNAME"
                ["DB_HOST"; "DB_NAME"; "DB_USERNAME"; "DB_PASSWORD"])
    by (cbn; tauto).
  split; [exact I|]. split; [reflexivity|].
  exact (proj1 (Load_needs_every_required_key Sample.strconv None
                  (Sample.environ [("DB_HOST", "localhost");
                                   ("DB_NAME", "app");
                                   ("DB_PASSWORD", "secret")])
                  "DB_USERNAME" I eq_refl)).
Defined.

(** X16.  With the four required keys set and no port given, [Load]
    returns the four values as they are, an empty value included, with the
    ports 8080 and 5432 of the [default] tags (given that the library
    reads these two numerals as the numbers they write). *)
Theorem Load_with_required_keys_uses_default_ports (S : config.Strconv)
    (dotenv : option config.Env) (env : config.Env) (h n u p : string) :
  let merged := config.godotenv_Load dotenv env in
  config_value merged "APP" "APP_PORT" = None ->
  config_value merged "DB" "DB_PORT" = None ->
  config_value merged "DB" "DB_HOST" = Some h ->
  config_value merged "DB" "DB_NAME" = Some n ->
  config_value merged "DB" "DB_USERNAME" = Some u ->
  config_value merged "DB" "DB_PASSWORD" = Some p ->
  config.ParseInt "8080" = (8080%Z, None) ->
  config.ParseInt "5432" = (5432%Z, None) ->
  config.Load dotenv env
  = (Some (config.mkConfig (config.mkAppConfig 8080)
             (config.mkDBConfig h 5432 n u p)), None).
Proof.
  cbv zeta. intros A P H N U W P1 P2.
  unfold config.Load, config.Process_App.
  rewrite processInt_eq by discriminate. rewrite A. cbv zeta. rewrite P1.
  rewrite Process_DB_eq, !processString_eq by discriminate.
  rewrite processInt_eq by discriminate.
  rewrite H, P, N, U, W. cbv zeta. rewrite P2. reflexivity.
Qed.

Lemma Load_with_required_keys_uses_default_ports_witness :
  config.Load None (Sample.environ Sample.db_vars)
  = (Some (config.mkConfig (config.mkAppConfig 8080)
             (config.mkDBConfig "localhost" 5432 "app" "app" "")), None).
Proof.
  exact (Load_with_required_keys_uses_default_ports Sample.strconv None
           (Sample.environ Sample.db_vars) "localhost" "app" "app" ""
           eq_refl eq_refl eq_refl eq_refl eq_refl eq_refl eq_refl eq_refl).
Defined.

(** X17.  The file .env never replaces a variable of the environment:
    two files that agree on the keys the environment does not have give
    the same result of [Load]. *)
Theorem Load_environment_wins_over_dotenv (S : config.Strconv)
    (file file' : config.Env) (env : config.Env) :
  (forall key, env key = None -> file key = file' key) ->
  config.Load (Some file) env = config.Load (Some file') env.
Proof.
  intros A.
  change (config.Load None (config.godotenv_Load (Some file) env)
          = config.Load None (config.godotenv_Load (Some file') env)).
  apply Load_ext. intros k. cbn.
  destruct (env k) eqn:E; [reflexivity | apply A, E].
Qed.

Lemma Load_environment_wins_over_dotenv_witness :
  let env := Sample.environ (("APP_PORT", "9000") :: Sample.db_vars) in
  let file := Sample.environ [("APP_PORT", "1"); ("DB_HOST", "elsewhere")] in
  (forall key, env key = None -> file key = Sample.environ [] key)
  /\ config.Load (Some file) env
     = (Some (config.mkConfig (config.mkAppConfig 9000)
                (config.mkDBConfig "localhost" 5432 "app" "app" "")), None).
Proof.
  cbv zeta.
  assert (A : forall key,
             Sample.environ (("APP_PORT", "9000") :: Sample.db_vars) key = None ->
             Sample.environ [("APP_PORT", "1"); ("DB_HOST", "elsewhere")] key
             = Sample.environ [] key).
  { intros key. cbn -[String.eqb].
    destruct (String.eqb "APP_PORT" key); [discriminate|].
    destruct (String.eqb "DB_HOST" key); [discriminate | reflexivity]. }
  split; [exact A|].
  rewrite (Load_environment_wins_over_dotenv Sample.strconv _ _ _ A).
  reflexivity.
Defined.

(** X18.  [Load] reports the APP section first: when the value found for
    APP_PORT does not convert to an integer, [Load] returns an error under
    the prefix [load APP config: ] and no configuration, whatever the DB
    variables are. *)
Theorem Load_reports_app_error_first (S : config.Strconv)
    (dotenv : option config.Env) (env : config.Env) (v : string) (n : Z)
    (e : error) :
  config_value (config.godotenv_Load dotenv env) "APP" "APP_PORT" = Some v ->
  config.ParseInt v = (n, Some e) ->
  exists err,
    config.Load dotenv env
    = (None, Some (fmt_Errorf_w "load APP config: " err))
    /\ String.prefix "load APP config: "
         (Error (fmt_Errorf_w "load APP config: " err)) = true.
Proof.
  intros A P. unfold config.Load, config.Process_App.
  rewrite processInt_eq by discriminate. rewrite A. cbv zeta. rewrite P.
  eexists. split; [reflexivity | apply prefix_app_literal].
Qed.

Lemma Load_reports_app_error_first_witness :
  let env := Sample.environ [("APP_PORT", "eighty")] in
  config_value (config.godotenv_Load None env) "APP" "APP_PORT"
  = Some "eighty"
  /\ config.ParseInt "eighty" = (0%Z, Some (errorString "invalid syntax"))
  /\ exists err,
       config.Load None env
       = (None, Some (fmt_Errorf_w "load APP config: " err)).
Proof.
  cbv zeta. split; [reflexivity|]. split; [reflexivity|].
  destruct (Load_reports_app_error_first Sample.strconv None
              (Sample.environ [("APP_PORT", "eighty")]) "eighty" 0
              (errorString "invalid syntax") eq_refl eq_refl) as (err & E & _).
  exists err. exact E.
Defined.

(* ===================================================================== *)
(** ** The process and the tokens *)
(* ===================================================================== *)

(** X19.  How [main] ends.  A configuration error ends the process with a
    non-zero status before the container or the server exist, whatever
    the listener and the signals would do.  The process ends with status 0
    exactly when the configuration loads and [StartRestAPI] returns nil,
    and only then has the deferred [Close] run; it is still running
    exactly when the configuration loads and [StartRestAPI] is waiting. *)
Theorem main_exit_status (L : Libs) (C : request.Codec) (S : config.Strconv)
    (dotenv : option config.Env) (env : config.Env)
    (server : bootstrap.Server) (arrivals : list bootstrap.Signal) :
  (forall err,
     snd (config.Load dotenv env) = Some err ->
     cmd.main dotenv env server arrivals
     = Some (cmd.mkExit 1 (Some ("config error: " ++ Error err)) []))
  /\ (forall out,
        cmd.main dotenv env server arrivals = Some out ->
        (cmd.code out = 0%Z
         <-> snd (config.Load dotenv env) = None
             /\ bootstrap.StartRestAPI server arrivals = Some None)
        /\ (cmd.stdout out = ["Container closed"] <-> cmd.code out = 0%Z)
        /\ (cmd.fatal out = None <-> cmd.code out = 0%Z))
  /\ (cmd.main dotenv env server arrivals = None
      <-> snd (config.Load dotenv env) = None
          /\ bootstrap.StartRestAPI server arrivals = None).
Proof.
  unfold cmd.main, cmd.Fatalf.
  destruct (config.Load dotenv env) as [cfg [lerr|]]; cbn [snd].
  - split; [intros err E; injection E as <-; reflexivity|].
    split.
    + intros out E. injection E as <-. cbn.
      split; [|split]; split; intros X; try discriminate X.
      destruct X as [X _]; discriminate X.
    + split; [discriminate | intros [X _]; discriminate X].
  - split; [discriminate|].
    unfold bootstrap.CreateServerContainer, bootstrap.InitializeContainer.
    destruct (bootstrap.StartRestAPI server arrivals) as [[serr|]|].
    + split; [|split; [discriminate | intros [_ X]; discriminate X]].
      intros out E. injection E as <-. cbn.
      split; [|split]; split; intros X; try discriminate X.
      destruct X as [_ X]; discriminate X.
    + split; [|split; [discriminate | intros [_ X]; discriminate X]].
      intros out E. injection E as <-. cbn.
      split; [|split]; split; intros X; auto.
    + split; [discriminate|]. split; auto.
Qed.

Lemma main_exit_status_witness :
  snd (config.Load None (Sample.environ [])) 
  = Some (fmt_Errorf_w "load DB config: "
            (errorString "required key DB_HOST missing value"))
  /\ cmd.main None (Sample.environ []) Sample.idle_server []
     = Some (cmd.mkExit 1
               (Some ("config error: load DB config: "
                      ++ "required key DB_HOST missing value")) [])
  /\ cmd.main None (Sample.environ Sample.db_vars) Sample.idle_server
       [bootstrap.ctxDone]
     = Some (cmd.mkExit 0 None ["Container closed"]).
Proof.
  split; [reflexivity|]. split.
  - exact (proj1 (main_exit_status Sample.libs Sample.codec Sample.strconv
                    None (Sample.environ []) Sample.idle_server [])
             _ eq_refl).
  - reflexivity.
Defined.

Section Tokens.

Context {Claims : Type} `{J : jwt.Lib Claims}.

(** [Verify], by the steps of the library. *)
Lemma Verify_eq (c : jwt.Client) (tokenStr : string) :
  jwt.Verify c tokenStr
  = match jwt.ParseUnverified tokenStr with
    | inr _ => Some jwt.ErrInvalidToken
    | inl token =>
        match jwt.DecodeSegment (jwt.encodedSignature token) with
        | (_, Some _) => Some jwt.ErrInvalidToken
        | (sig, None) =>
            match jwt.Method token with
            | jwt.otherMethod _ => Some jwt.ErrInvalidToken
            | jwt.SigningMethodHMAC _ =>
                match jwt.MethodVerify (jwt.Method token) (jwt.text token)
                        sig (jwt.secretKey c) with
                | Some _ => Some jwt.ErrInvalidToken
                | None =>
                    match jwt.Validate (jwt.TokenClaims token) with
                    | Some _ => Some jwt.ErrInvalidToken
                    | None => None
                    end
                end
            end
        end
    end.
Proof.
  unfold jwt.Verify, jwt.ParseWithClaims, jwt.keyFunc.
  destruct (jwt.ParseUnverified tokenStr) as [token|err]; [|reflexivity].
  destruct (jwt.DecodeSegment (jwt.encodedSignature token)) as [sig [err|]];
    [reflexivity|].
  destruct (jwt.Method token) as [alg|alg]; [|reflexivity].
  destruct (jwt.MethodVerify _ _ _ _); [reflexivity|].
  destruct (jwt.Validate _); reflexivity.
Qed.

End Tokens.

(** X20.  [Verify] returns nil or [ErrInvalidToken] and nothing else: the
    errors of the library are not passed on.  It returns nil exactly when
    the token parses, its signature decodes, its method is an HMAC method
    (any of them, not only the HS256 of [Generate]), the signature
    verifies under the secret of the client and the claims validate; a
    token of any other method is refused whatever its signature. *)
Theorem verify_accepts_exactly_valid_hmac_tokens (Claims : Type)
    (J : jwt.Lib Claims) (c : jwt.Client) (tokenStr : string) :
  (jwt.Verify c tokenStr = None
   \/ jwt.Verify c tokenStr = Some jwt.ErrInvalidToken)
  /\ (jwt.Verify c tokenStr = None
      <-> exists token sig alg,
            jwt.ParseUnverified tokenStr = inl token
            /\ jwt.DecodeSegment (jwt.encodedSignature token) = (sig, None)
            /\ jwt.Method token = jwt.SigningMethodHMAC alg
            /\ jwt.MethodVerify (jwt.Method token) (jwt.text token) sig
                 (jwt.secretKey c) = None
            /\ jwt.Validate (jwt.TokenClaims token) = None)
  /\ (forall token alg,
        jwt.ParseUnverified tokenStr = inl token ->
        jwt.Method token = jwt.otherMethod alg ->
        jwt.Verify c tokenStr = Some jwt.ErrInvalidToken).
Proof.
  rewrite !Verify_eq.
  destruct (jwt.ParseUnverified tokenStr) as [token|perr].
  2:{ split; [right; reflexivity|]. split; [|discriminate].
      split; [discriminate | intros (t & s & a & H & _); discriminate H]. }
  destruct (jwt.DecodeSegment (jwt.encodedSignature token)) as [sig [derr|]]
    eqn:D.
  { split; [right; reflexivity|]. split.
    - split; [discriminate|].
      intros (t & s & a & H & D' & _). injection H as <-.
      rewrite D in D'. discriminate D'.
    - reflexivity. }
  destruct (jwt.Method token) as [alg|alg] eqn:M.
  2:{ split; [right; reflexivity|]. split; [|reflexivity].
      split; [discriminate|].
      intros (t & s & a & H & _ & M' & _). injection H as <-.
      rewrite M in M'. discriminate M'. }
  destruct (jwt.MethodVerify (jwt.SigningMethodHMAC alg) (jwt.text token) sig
              (jwt.secretKey c)) as [verr|] eqn:V.
  { split; [right; reflexivity|]. split.
    - split; [discriminate|].
      intros (t & s & a & H & D' & M' & V' & _). injection H as <-.
      rewrite D in D'. injection D' as <-. rewrite M, V in V'.
      discriminate V'.
    - intros t a H M'. injection H as <-. rewrite M in M'. discriminate M'. }
  destruct (jwt.Validate (jwt.TokenClaims token)) as [cerr|] eqn:W.
  { split; [right; reflexivity|]. split.
    - split; [discriminate|].
      intros (t & s & a & H & _ & _ & _ & W'). injection H as <-.
      rewrite W in W'. discriminate W'.
    - intros t a H M'. injection H as <-. rewrite M in M'. discriminate M'. }
  split; [left; reflexivity|]. split.
  - split; [|reflexivity]. intros _. exists token, sig, alg.
    rewrite M. repeat split; assumption.
  - intros t a H M'. injection H as <-. rewrite M in M'. discriminate M'.
Qed.

Lemma verify_accepts_exactly_valid_hmac_tokens_witness :
  let c := jwt.NewJWTClient "k" 3600 in
  jwt.ParseUnverified "none|sub=1.k#none|sub=1"
  = inl (jwt.mkToken (jwt.otherMethod "none") "sub=1" "none|sub=1"
           "k#none|sub=1")
  /\ jwt.Verify (Claims := string) c "none|sub=1.k#none|sub=1"
     = Some jwt.ErrInvalidToken
  /\ jwt.Verify (Claims := string) c "HS256|sub=1.k#HS256|sub=1" = None.
Proof.
  cbv zeta. split; [reflexivity|]. split.
  - exact (proj2 (proj2 (verify_accepts_exactly_valid_hmac_tokens string
                           Sample.tokens (jwt.NewJWTClient "k" 3600)
                           "none|sub=1.k#none|sub=1"))
             _ "none" eq_refl eq_refl).
  - reflexivity.
Defined.

(** X21.  [Generate] and [Verify] agree on the method and on the key: with
    a library that parses what it serializes, decodes what it encodes and
    verifies what it signs, a token [Generate] made is accepted by
    [Verify] of a client with the same secret, whenever its claims
    validate. *)
Theorem generate_then_verify (Claims : Type) (J : jwt.Lib Claims)
    (c c' : jwt.Client) (claims : Claims) (sstr sig : string)
    (token : jwt.Token Claims) :
  jwt.secretKey c' = jwt.secretKey c ->
  jwt.SigningString jwt.SigningMethodHS256 claims = (sstr, None) ->
  jwt.Sign jwt.SigningMethodHS256 sstr (jwt.secretKey c) = (sig, None) ->
  jwt.ParseUnverified (sstr ++ "." ++ jwt.EncodeSegment sig) = inl token ->
  jwt.Method token = jwt.SigningMethodHS256 ->
  jwt.text token = sstr ->
  jwt.encodedSignature token = jwt.EncodeSegment sig ->
  jwt.DecodeSegment (jwt.EncodeSegment sig) = (sig, None) ->
  jwt.MethodVerify jwt.SigningMethodHS256 sstr sig (jwt.secretKey c) = None ->
  jwt.Validate (jwt.TokenClaims token) = None ->
  exists signedToken,
    jwt.Generate c claims = (signedToken, None)
    /\ jwt.Verify c' signedToken = None.
Proof.
  intros K S1 S2 P M T E D V W.
  exists (sstr ++ "." ++ jwt.EncodeSegment sig). split.
  - unfold jwt.Generate, jwt.SignedString. rewrite S1, S2. reflexivity.
  - rewrite Verify_eq, P, E, D, M. unfold jwt.SigningMethodHS256.
    rewrite T, K. fold jwt.SigningMethodHS256. rewrite V, W. reflexivity.
Qed.

Lemma generate_then_verify_witness :
  let c := jwt.NewJWTClient "k" 3600 in
  exists signedToken,
    jwt.Generate (Claims := string) c "sub=1" = (signedToken, None)
    /\ jwt.Verify (Claims := string) (jwt.NewJWTClient "k" 60) signedToken
       = None.
Proof.
  cbv zeta.
  exact (generate_then_verify string Sample.tokens
           (jwt.NewJWTClient "k" 3600) (jwt.NewJWTClient "k" 60) "sub=1"
           "HS256|sub=1" "k#HS256|sub=1"
           (jwt.mkToken jwt.SigningMethodHS256 "sub=1" "HS256|sub=1"
              "k#HS256|sub=1")
           eq_refl eq_refl eq_refl eq_refl eq_refl eq_refl eq_refl eq_refl
           eq_refl eq_refl).
Defined.

(* ===================================================================== *)
(** ** Further properties of the handlers *)
(* ===================================================================== *)

Section HandlersFurther.

Context `{L : Libs} `{C : request.Codec}.

(** The calls of [Create] one [Execute] makes: none or one, and one when
    it returns without error. *)
Lemma Execute_calls (uc : use_case.SignUpUseCase) (ctx : Context)
    (input : dto.SignUpInput) (w : World) :
  exists added,
    createCalls (snd (use_case.Execute uc ctx input w))
    = (createCalls w ++ added)%list
    /\ length added <= 1
    /\ (snd (fst (use_case.Execute uc ctx input w)) = None ->
        length added = 1).
Proof.
  rewrite Execute_eq.
  destruct (bcrypt.GenerateFromPassword _ _ _) as [[hashed [err|]] r'].
  - exists []. rewrite app_nil_r. cbn. repeat split; [lia | discriminate].
  - cbv zeta. destruct (entity.Validate _).
    + exists []. rewrite app_nil_r. cbn. repeat split; [lia | discriminate].
    + pose proof (call_Create_createCalls (use_case.userRepo uc) ctx
                    (unpersisted (dto.Email input) hashed)
                    (with_entropy w r')) as K.
      destruct (call_Create _ _ _ _) as [[newUser cerr] w'].
      exists [unpersisted (dto.Email input) hashed].
      split; [destruct cerr; exact K|]. cbn. split; [lia | reflexivity].
Qed.

Lemma legacy_Execute_calls (uc : legacy.SignUpUseCase) (ctx : Context)
    (req : legacy.SignUpRequestDto) (w : World) :
  exists added,
    createCalls (snd (legacy.Execute uc ctx req w))
    = (createCalls w ++ added)%list
    /\ length added <= 1
    /\ (snd (fst (legacy.Execute uc ctx req w)) = None -> length added = 1).
Proof.
  rewrite legacy_Execute_eq. destruct (legacy.Validate req).
  - exists []. rewrite app_nil_r. cbn. repeat split; [lia | discriminate].
  - apply Execute_calls.
Qed.

End HandlersFurther.

(** X22.  One request makes at most one call of [Create], whatever the
    repository and the codec are, and an answer of 201 means that exactly
    one call was made: neither handler answers 201 without having handed
    an entity to the repository. *)
Theorem sign_up_persists_once_when_201 (L : Libs) (C : request.Codec)
    (repo : contract.UserRepository) (resWriter : http.ResponseWriter)
    (r : http.Request) (w : World) :
  http.wroteHeader resWriter = false ->
  let persisted (out : http.ResponseWriter * World) :=
    exists added,
      createCalls (snd out) = (createCalls w ++ added)%list
      /\ length added <= 1
      /\ (http.status (fst out) = http.StatusCreated -> length added = 1) in
  persisted (handlers.SignUp
               (handlers.NewAuthHandler (use_case.NewSignUpUseCase repo))
               resWriter r w)
  /\ persisted (module_route.SignUp
                  (module_route.NewAuthHandler (legacy.NewSignUpUseCase repo))
                  resWriter r w).
Proof.
  intros W. cbv zeta.
  assert (B : forall v,
             http.status (request.ToJSON resWriter v http.StatusBadRequest)
             = http.StatusCreated -> False).
  { intros v E.
    destruct (ToJSON_responds resWriter v http.StatusBadRequest W)
      as (_ & S & _).
    rewrite S in E. discriminate E. }
  split.
  - destruct (SignUp_cases
                (handlers.NewAuthHandler (use_case.NewSignUpUseCase repo))
                resWriter r w)
      as [payload err D | payload err D V | payload user err w' D V E
         | payload user w' D V E]; cbn [fst snd].
    + exists []. rewrite app_nil_r.
      repeat split; [cbn; lia | intros S; destruct (B _ S)].
    + exists []. rewrite app_nil_r.
      repeat split; [cbn; lia | intros S; destruct (B _ S)].
    + destruct (Execute_calls
                  (handlers.signUpUseCase
                     (handlers.NewAuthHandler (use_case.NewSignUpUseCase repo)))
                  tt (input_of payload) w) as (added & K & Le & _).
      rewrite E in K. exists added.
      repeat split; [exact K | exact Le | intros S; destruct (B _ S)].
    + destruct (Execute_calls
                  (handlers.signUpUseCase
                     (handlers.NewAuthHandler (use_case.NewSignUpUseCase repo)))
                  tt (input_of payload) w) as (added & K & Le & One).
      rewrite E in K, One. exists added.
      repeat split; [exact K | exact Le | intros _; apply One; reflexivity].
  - destruct (legacy_SignUp_cases
                (module_route.NewAuthHandler (legacy.NewSignUpUseCase repo))
                resWriter r w)
      as [payload err D | payload user err w' D E | payload user w' D E];
      cbn [fst snd].
    + exists []. rewrite app_nil_r.
      repeat split; [cbn; lia | intros S; destruct (B _ S)].
    + destruct (legacy_Execute_calls
                  (module_route.signUpUseCase
                     (module_route.NewAuthHandler
                        (legacy.NewSignUpUseCase repo)))
                  tt payload w) as (added & K & Le & _).
      rewrite E in K. exists added.
      repeat split; [exact K | exact Le | intros S; destruct (B _ S)].
    + destruct (legacy_Execute_calls
                  (module_route.signUpUseCase
                     (module_route.NewAuthHandler
                        (legacy.NewSignUpUseCase repo)))
                  tt payload w) as (added & K & Le & One).
      rewrite E in K, One. exists added.
      repeat split; [exact K | exact Le | intros _; apply One; reflexivity].
Qed.

Lemma sign_up_persists_once_when_201_witness :
  http.wroteHeader http.newResponse = false
  /\ http.status
       (fst (module_route.SignUp wired_legacy_handler http.newResponse
               (Sample.post "Bob@x.io secret")
               (Sample.world Sample.counting))) = 201%Z
  /\ exists added,
       createCalls
         (snd (module_route.SignUp wired_legacy_handler http.newResponse
                 (Sample.post "Bob@x.io secret")
                 (Sample.world Sample.counting)))
       = ([] ++ added)%list
       /\ length added = 1.
Proof.
  assert (W : http.wroteHeader http.newResponse = false) by reflexivity.
  split; [exact W|]. split; [reflexivity|].
  destruct (proj2 (sign_up_persists_once_when_201 Sample.libs Sample.codec
                     infrastructure.NewUserRepository http.newResponse
                     (Sample.post "Bob@x.io secret")
                     (Sample.world Sample.counting) W))
    as (added & K & _ & One).
  exists added. split; [exact K | apply One; reflexivity].
Defined.

(** X23.  What [min=5] means in bytes for the request of the hand-wired
    variant: a password of fewer than five bytes is always refused, and
    beside a valid email an ASCII password of five bytes or more is
    accepted; in between, the characters decide, not the bytes. *)
Theorem legacy_validate_password_bytes (L : Libs) (e p : string) :
  (String.length p < 5 ->
   exists err, legacy.Validate (legacy.mkSignUpRequestDto e p) = Some err)
  /\ (e <> "" -> isEmail e = true ->
      strings.isASCII p = true -> 5 <= String.length p ->
      legacy.Validate (legacy.mkSignUpRequestDto e p) = None).
Proof.
  split.
  - intros Hlt. apply legacy_Validate_short_password.
    cbn [legacy.Password].
    pose proof (RuneCountInString_le_length p). lia.
  - intros Ne E A Hle.
    assert (R : 5 <= utf8.RuneCountInString p)
      by (rewrite (RuneCountInString_ASCII p A); exact Hle).
    unfold legacy.Validate, validator.Var.
    cbn [validator.check legacy.Email legacy.Password].
    assert (Np : p <> "") by (intros ->; cbn in Hle; lia).
    apply required_holds_iff in Ne, Np. rewrite Ne, Np.
    cbn [validator.holds]. rewrite E.
    destruct (Nat.leb_spec 5 (utf8.RuneCountInString p)); [reflexivity|lia].
Qed.

Lemma legacy_validate_password_bytes_witness :
  let accents :=
    String (ascii_of_nat 195) (String (ascii_of_nat 169)
      (String (ascii_of_nat 195) (String (ascii_of_nat 169) "ab"))) in
  String.length "abcd" < 5
  /\ "bob@x.io" <> "" /\ isEmail "bob@x.io" = true
  /\ strings.isASCII "abcde" = true /\ 5 <= String.length "abcde"
  /\ (exists err,
        legacy.Validate (legacy.mkSignUpRequestDto "bob@x.io" "abcd")
        = Some err)
  /\ legacy.Validate (legacy.mkSignUpRequestDto "bob@x.io" "abcde") = None
  /\ String.length accents = 6
  /\ legacy.Validate (legacy.mkSignUpRequestDto "bob@x.io" accents)
     = Some (FieldError "" "" "min").
Proof.
  cbv zeta.
  assert (H1 : String.length "abcd" < 5) by (cbn; lia).
  assert (H2 : "bob@x.io" <> "") by discriminate.
  assert (H3 : 5 <= String.length "abcde") by (cbn; lia).
  split; [exact H1|]. split; [exact H2|]. split; [reflexivity|].
  split; [reflexivity|]. split; [exact H3|].
  split; [|split; [|split; reflexivity]].
  - exact (proj1 (legacy_validate_password_bytes Sample.libs "bob@x.io"
                    "abcd") H1).
  - exact (proj2 (legacy_validate_password_bytes Sample.libs "bob@x.io"
                    "abcde") H2 eq_refl eq_refl H3).
Defined.
